(** * update-presets: the ephemeris patcher of keplerian-sim-demo

    A shallow embedding of [scripts/update-presets.py] and the properties of
    its registry lookup, ephemeris parser, ephemeris client and config
    patcher.

    Conventions of the embedding:
    - a Python [str] is a [string] whose characters are code points below 256;
    - a Python [float] is a binary64 [PrimFloat.float];
    - [float()] and the formatting of a float inside an f-string are Python
      built-ins: they are parameters of the development, as is the outcome of
      the HTTP GET (the network);
    - a computation that can raise and that prints, fetches or writes files is
      a value of [M A]: the trace of its effects and either the exception
      that ended it or its result;
    - a file is the text it stores.  The config file is read in text mode,
      with universal newlines; text is written as on a system whose line
      separator is LF;
    - the temporary file lies in the default temporary directory: whether
      that directory is on the filesystem of the config file is a parameter
      of the states the file system goes through during the move. *)

From Stdlib Require Import ZArith Floats Ascii String.
From stdpp Require Import gmap strings list sorting pretty.

Local Open Scope Z_scope.

(** ** Python string primitives *)

Module Py.

(** [str.isspace] on one code point below 256: TAB..CR, FS..US, space, NEL
    and the no-break space. *)
Definition isspace (c : ascii) : bool :=
  let n := Z.of_nat (nat_of_ascii c) in
  ((9 <=? n) && (n <=? 13)) || ((28 <=? n) && (n <=? 32))
  || (n =? 133) || (n =? 160).

Definition is_empty (s : string) : bool :=
  match s with EmptyString => true | String _ _ => false end.

Fixpoint lstrip (s : string) : string :=
  match s with
  | EmptyString => EmptyString
  | String c r => if isspace c then lstrip r else s
  end.

Fixpoint rstrip (s : string) : string :=
  match s with
  | EmptyString => EmptyString
  | String c r =>
      let r' := rstrip r in
      if isspace c && is_empty r' then EmptyString else String c r'
  end.

(** [s.strip()] *)
Definition strip (s : string) : string := rstrip (lstrip s).

(** [s.startswith(p)] *)
Definition startswith (s p : string) : bool := String.prefix p s.

(** [s.endswith(p)] *)
Definition endswith (s p : string) : bool :=
  let n := String.length s in
  let k := String.length p in
  (k <=? n)%nat && String.eqb (substring (n - k) k s) p.

Fixpoint find_from (s sub : string) (i : Z) : Z :=
  if String.prefix sub s then i
  else match s with
       | EmptyString => -1
       | String _ r => find_from r sub (i + 1)
       end.

(** [s.find(sub)]: the index of the first occurrence, or -1. *)
Definition find (s sub : string) : Z := find_from s sub 0.

(** [sub in s] *)
Definition contains (s sub : string) : Prop :=
  exists pre post, s = pre +:+ sub +:+ post.

(** A slice bound, as Python normalises it: a negative bound counts from the
    end, and both are clamped to the string. *)
Definition slice_bound (len i : Z) : Z :=
  if i <? 0 then Z.max 0 (i + len) else Z.min i len.

(** [s[i:j]] *)
Definition slice (s : string) (i j : Z) : string :=
  let len := Z.of_nat (String.length s) in
  let a := slice_bound len i in
  let b := slice_bound len j in
  if a <? b then substring (Z.to_nat a) (Z.to_nat (b - a)) s else EmptyString.

(** The line boundaries of [str.splitlines] below 256: LF, VT, FF, CR, FS,
    GS, RS and NEL; CR LF is one boundary. *)
Definition is_linebreak (c : ascii) : bool :=
  let n := Z.of_nat (nat_of_ascii c) in
  ((10 <=? n) && (n <=? 13)) || ((28 <=? n) && (n <=? 30)) || (n =? 133).

Definition is_cr (c : ascii) : bool := (nat_of_ascii c =? 13)%nat.
Definition is_lf (c : ascii) : bool := (nat_of_ascii c =? 10)%nat.

(** Puts [c] in front of the first line of [ls]. *)
Definition push_char (c : ascii) (ls : list string) : list string :=
  match ls with
  | [] => [String c EmptyString]
  | l :: ls' => String c l :: ls'
  end.

(** [s.splitlines()] *)
Fixpoint splitlines (s : string) : list string :=
  match s with
  | EmptyString => []
  | String c r =>
      if is_linebreak c then
        match r with
        | String c' r' =>
            if is_cr c && is_lf c' then EmptyString :: splitlines r'
            else EmptyString :: splitlines r
        | EmptyString => [EmptyString]
        end
      else push_char c (splitlines r)
  end.

Fixpoint split_go (s : string) : string * list string :=
  match s with
  | EmptyString => (EmptyString, [])
  | String c r =>
      let '(cur, toks) := split_go r in
      if isspace c
      then (EmptyString, if is_empty cur then toks else cur :: toks)
      else (String c cur, toks)
  end.

(** [s.split()]: the maximal runs of non-whitespace characters. *)
Definition split (s : string) : list string :=
  let '(cur, toks) := split_go s in
  if is_empty cur then toks else cur :: toks.

(** [sep.join(l)] *)
Definition join (sep : string) (l : list string) : string :=
  String.concat sep l.

(** The lines of a file as it is stored, each with the line ending it has
    in the file: LF, CR LF or a lone CR; the last line may lack one. *)
Fixpoint raw_lines (s : string) : list string :=
  match s with
  | EmptyString => []
  | String c r =>
      if is_lf c then String c EmptyString :: raw_lines r
      else if is_cr c then
        match r with
        | String c' r' =>
            if is_lf c' then String c (String c' EmptyString) :: raw_lines r'
            else String c EmptyString :: raw_lines r
        | EmptyString => [String c EmptyString]
        end
      else push_char c (raw_lines r)
  end.

(** What universal newlines make of a stored line: the text up to the line
    ending, and LF for a CR LF or a lone CR. *)
Fixpoint translate_ending (l : string) : string :=
  match l with
  | EmptyString => EmptyString
  | String c r =>
      if is_cr c then String (ascii_of_nat 10) EmptyString
      else String c (translate_ending r)
  end.

(** The lines a file object opened with [open(path, "r")] yields when
    iterated.  The file is read with universal newlines: LF, CR LF and a lone
    CR each end a line and are handed over as LF; the last line may lack a
    line ending. *)
Fixpoint file_lines (s : string) : list string :=
  match s with
  | EmptyString => []
  | String c r =>
      if is_lf c then String c EmptyString :: file_lines r
      else if is_cr c then
        match r with
        | String c' r' =>
            if is_lf c' then String c' EmptyString :: file_lines r'
            else String (ascii_of_nat 10) EmptyString :: file_lines r
        | EmptyString => [String (ascii_of_nat 10) EmptyString]
        end
      else push_char c (file_lines r)
  end.

(** The string holds no CR. *)
Fixpoint cr_free (s : string) : bool :=
  match s with
  | EmptyString => true
  | String c r => negb (is_cr c) && cr_free r
  end.

End Py.

Definition NL : string := String (ascii_of_nat 10) EmptyString.
Definition CR : string := String (ascii_of_nat 13) EmptyString.

(** ** Exceptions, effects and the monad of the script *)

(** The exceptions the script can meet.  All of them are subclasses of
    Python's [Exception], so an [except Exception] clause catches each. *)
Inductive exn : Type :=
| KeyError (key : string)            (* [set.remove] of a missing element *)
| Exception (msg : string)           (* [raise Exception(msg)] *)
| ValueError (token : string)        (* [float(token)] on a non-numeric token *)
| IndexError                         (* list index out of range *)
| RequestException (detail : string) (* raised inside [SESSION.get] *)
| HTTPError (status : Z)             (* [response.raise_for_status()] *)
| OSError.                           (* [open] on a file that cannot be opened *)

Definition result (A : Type) : Type := exn + A.

(** The observable effects, in the order they happen. *)
Inductive event : Type :=
| Print (line : string) (arg : option exn) (* [print(line)], [print(line, exception)] *)
| HttpGet (url : string)                   (* [SESSION.get(url, ...)] *)
| TmpCreate                                (* [tempfile.NamedTemporaryFile("w", delete=False)] *)
| TmpWrite (chunk : string)                (* [tmp.write(chunk)] *)
| TmpClose                                 (* leaving the [with] block *)
| Move.                                    (* [shutil.move(tmp.name, toml_path)] *)

Definition M (A : Type) : Type := list event * result A.

Definition ret {A} (x : A) : M A := ([], inr x).
Definition raise {A} (e : exn) : M A := ([], inl e).
Definition emit (ev : event) : M unit := ([ev], inr tt).
Definition lift {A} (r : result A) : M A := ([], r).

Definition bind {A B} (m : M A) (k : A -> M B) : M B :=
  match m with
  | (tr, inl e) => (tr, inl e)
  | (tr, inr x) => let '(tr', r) := k x in (tr ++ tr', r)
  end.

(** [try: body except Exception as e: handler(e)] *)
Definition try_except {A} (body : M A) (handler : exn -> M A) : M A :=
  match body with
  | (tr, inl e) => let '(tr', r) := handler e in (tr ++ tr', r)
  | (tr, inr x) => (tr, inr x)
  end.

Notation "'let*' x ':=' m 'in' k" := (bind m (fun x => k))
  (at level 10, x pattern, m at level 100, k at level 200).

(** Sequencing of computations that raise but have no other effect. *)
Definition rbind {A B} (r : result A) (k : A -> result B) : result B :=
  match r with
  | inl e => inl e
  | inr x => k x
  end.

Notation "'let?' x ':=' r 'in' k" := (rbind r (fun x => k))
  (at level 10, x pattern, r at level 100, k at level 200).

(** [l[i]] for a non-negative [i] *)
Definition index {A} (l : list A) (i : nat) : result A :=
  match l !! i with
  | Some x => inr x
  | None => inl IndexError
  end.

Definition trace {A} (m : M A) : list event := fst m.
Definition outcome {A} (m : M A) : result A := snd m.

(** ** Data model *)

(** The elements returned by the API call in its original form. *)
Record Elements : Type := mkElements {
  ec : float;   (* eccentricity *)
  qr : float;   (* periapsis radius, km *)
  in_ : float;  (* inclination, degrees *)
  om : float;   (* longitude of ascending node, degrees *)
  w : float;    (* argument of periapsis, degrees *)
  ma : float;   (* mean anomaly, degrees *)
}.

(** A [dict[str, str]] whose iteration order matters: insertion order. *)
Definition dict : Type := list (string * string).

Fixpoint dict_set (d : dict) (k v : string) : dict :=
  match d with
  | [] => [(k, v)]
  | (k', v') :: d' =>
      if String.eqb k' k then (k', v) :: d' else (k', v') :: dict_set d' k v
  end.

(** [d.update(other)] *)
Definition dict_update (d other : dict) : dict :=
  fold_left (fun acc kv => dict_set acc (fst kv) (snd kv)) other d.

Definition API_BASE : string := "https://ssd.jpl.nasa.gov/api/horizons.api".

(** [TLIST] is [f"'{TDB_TIMESTAMP:.9f}'"] for 2460946.166666700. *)
Definition API_BASE_PARAMS : dict :=
  [ ("format", "text");
    ("OBJ_DATA", "NO");
    ("EPHEM_TYPE", "ELEMENTS");
    ("MAKE_EPHEM", "YES");
    ("REF_PLANE", "ECLIPTIC");
    ("TIME_TYPE", "TDB");
    ("TLIST", "'2460946.166666700'");
    ("TLIST_TYPE", "JD");
    ("ELM_LABELS", "NO") ].

Definition BODY_MAP : gmap string (option (string * string)) :=
  list_to_map
  [ ("the_sun", None);
    ("mercury", Some ("199", "10"));
    ("venus", Some ("299", "10"));
    ("earth", Some ("399", "10"));
    ("mars", Some ("499", "10"));
    ("jupiter", Some ("599", "10"));
    ("saturn", Some ("699", "10"));
    ("uranus", Some ("799", "10"));
    ("neptune", Some ("899", "10"));
    ("luna", Some ("301", "399"));
    ("phobos", Some ("401", "499"));
    ("deimos", Some ("402", "499"));
    ("io", Some ("501", "599"));
    ("europa", Some ("502", "599"));
    ("ganymede", Some ("503", "599"));
    ("callisto", Some ("504", "599"));
    ("titan", Some ("606", "699"));
    ("enceladus", Some ("602", "699"));
    ("mimas", Some ("601", "699"));
    ("tethys", Some ("603", "699"));
    ("iapetus", Some ("608", "699"));
    ("titania", Some ("703", "799"));
    ("oberon", Some ("704", "799"));
    ("triton", Some ("801", "899"));
    ("proteus", Some ("808", "899"));
    ("nereid", Some ("802", "899"));
    ("weywot", Some ("120050000", "920050000"));
    ("charon", Some ("901", "999"));
    ("dysnomia", Some ("120136199", "920136199"));
    ("ceres", Some ("1;", "10"));
    ("vesta", Some ("4;", "10"));
    ("quaoar", Some ("50000;", "10"));
    ("sedna", Some ("90377;", "10"));
    ("leleakuhonua", Some ("541132;", "10"));
    ("pluto", Some ("134340;", "10"));
    ("haumea", Some ("136108;", "10"));
    ("eris", Some ("136199;", "10"));
    ("makemake", Some ("136472;", "10"));
    ("parker_solar_probe", Some ("-96", "10"));
    ("voyager_1", Some ("-31", "10"));
    ("voyager_2", Some ("-32", "10"));
    ("new_horizons", Some ("-98", "10"));
    ("pioneer_10", Some ("-23", "10"));
    ("pioneer_11", Some ("-24", "10"));
    ("geostationary_sat", None) ].

(** ** Registry lookup and URL *)

Definition get_api_params (name : string) : result (option dict) :=
  match BODY_MAP !! name with
  | None =>
      inl (Exception ("Body '" +:+ name +:+ "' is not in BODY_MAP (unrecognized body)"))
  | Some None => inr None
  | Some (Some (this, parent)) =>
      let command := "'" +:+ this +:+ "'" in
      let center := "@" +:+ parent in
      let params := API_BASE_PARAMS in
      let params := dict_update params [("COMMAND", command); ("CENTER", center)] in
      inr (Some params)
  end.

Module Url.

(** The characters [urllib.parse.quote] never escapes. *)
Definition always_safe (c : ascii) : bool :=
  let n := Z.of_nat (nat_of_ascii c) in
  ((48 <=? n) && (n <=? 57)) || ((65 <=? n) && (n <=? 90))
  || ((97 <=? n) && (n <=? 122))
  || (n =? 95) || (n =? 46) || (n =? 45) || (n =? 126).

Definition hex_digit (n : nat) : ascii :=
  match String.get n "0123456789ABCDEF" with
  | Some c => c
  | None => "0"%char
  end.

Definition percent (byte : nat) : string :=
  String "%" (String (hex_digit (byte / 16)) (String (hex_digit (byte mod 16)) EmptyString)).

(** One code point: a space becomes [+], a safe character stays, anything
    else is percent-escaped byte by byte in UTF-8. *)
Definition quote_char (c : ascii) : string :=
  let n := nat_of_ascii c in
  if (n =? 32)%nat then "+"
  else if always_safe c then String c EmptyString
  else if (n <? 128)%nat then percent n
  else percent (192 + n / 64) +:+ percent (128 + n mod 64).

Fixpoint quote_plus (s : string) : string :=
  match s with
  | EmptyString => EmptyString
  | String c r => quote_char c +:+ quote_plus r
  end.

Definition urlencode (params : dict) : string :=
  Py.join "&" (map (fun kv => quote_plus (fst kv) +:+ "=" +:+ quote_plus (snd kv)) params).

End Url.

Definition get_api_url (params : dict) : string :=
  API_BASE +:+ "?" +:+ Url.urlencode params.

(** ** The network and the file system *)

Record Response : Type := mkResponse {
  status_code : Z;
  text : string;
}.

(** What [SESSION.get(url, timeout=DEFAULT_TIMEOUT)] does once the adapter's
    retries are over: it raises, or it returns a response. *)
Inductive get_outcome : Type :=
| GetRaises (detail : string)
| GetReturns (r : Response).

(** [response.raise_for_status()]: 4xx and 5xx statuses raise. *)
Definition raise_for_status (r : Response) : result unit :=
  if (400 <=? status_code r) && (status_code r <? 600)
  then inl (HTTPError (status_code r))
  else inr tt.

(** The config file (absent when it cannot be opened) and the temporary file
    of the write-back. *)
Record fs : Type := mkFs {
  toml_file : option string;
  tmp_file : option string;
}.

(** The file system once an effect is over.  Text is written as on a system
    whose [os.linesep] is LF: a chunk reaches the file as it is.  When
    [shutil.move] has returned, the config file holds what the temporary file
    held and the temporary file is gone, however the move was carried out
    (see [fs_during]). *)
Definition fs_step (s : fs) (ev : event) : fs :=
  match ev with
  | TmpCreate => mkFs (toml_file s) (Some EmptyString)
  | TmpWrite chunk => mkFs (toml_file s) ((fun c => c +:+ chunk) <$> tmp_file s)
  | Move =>
      match tmp_file s with
      | Some c => mkFs (Some c) None
      | None => s
      end
  | Print _ _ | HttpGet _ | TmpClose => s
  end.

Definition fs_run (s : fs) (tr : list event) : fs := fold_left fs_step tr s.

(** The states the config file goes through while [shutil.copyfile] copies
    [c] over it: the destination is opened for writing, which empties it, and
    is filled from the front. *)
Definition copy_states (c : string) : list string :=
  map (fun n => substring 0 n c) (seq 0 (S (String.length c))).

(** The states the file system goes through while an effect happens, the
    last one being [fs_step].  The temporary file is created by
    [tempfile.NamedTemporaryFile("w", delete=False)], without [dir]: it lies
    in the default temporary directory, and [same_filesystem] tells whether
    that directory is on the filesystem of the config file.  [shutil.move]
    calls [os.rename], which replaces the destination in one step; across
    filesystems [os.rename] fails and [shutil.move] copies the file over the
    destination, then unlinks the source. *)
Definition fs_during (same_filesystem : bool) (s : fs) (ev : event) : list fs :=
  match ev, tmp_file s with
  | Move, Some c =>
      if same_filesystem then [mkFs (Some c) None]
      else map (fun d => mkFs (Some d) (Some c)) (copy_states c) ++ [mkFs (Some c) None]
  | _, _ => [fs_step s ev]
  end.

(** All the states the file system goes through during the effects [tr]. *)
Fixpoint fs_states (same_filesystem : bool) (s : fs) (tr : list event) : list fs :=
  match tr with
  | [] => []
  | ev :: rest => fs_during same_filesystem s ev ++ fs_states same_filesystem (fs_step s ev) rest
  end.

(** The state of the scanning loop of [__main__]. *)
Record scan_state : Type := mkScan {
  current_body : option string;
  current_elements : option Elements;
  remaining_bodies : gset string;
  modified_lines : gmap nat string;
}.

(** [s.remove(x)]: raises [KeyError] when [x] is not in the set. *)
Definition set_remove (s : gset string) (x : string) : result (gset string) :=
  if decide (x ∈ s) then inr (s ∖ {[x]}) else inl (KeyError x).

(** [sorted(s)] for a set of strings. *)
Definition sorted (s : gset string) : list string :=
  merge_sort (fun a b => Is_true (String.leb a b)) (elements s).

(** ** Notions the properties are stated with *)

(** The chunks written to the temporary file, in order. *)
Definition written (tr : list event) : list string :=
  flat_map (fun ev => match ev with TmpWrite chunk => [chunk] | _ => [] end) tr.

(** [EmptyString.join(chunks)]: the content of a file the chunks were written to. *)
Definition joined (chunks : list string) : string :=
  foldr String.append EmptyString chunks.

(** The chunks the second loop writes for [lines], numbered from [i]. *)
Fixpoint patched (modified_lines : gmap nat string) (i : nat) (lines : list string) : list string :=
  match lines with
  | [] => []
  | line :: rest =>
      match modified_lines !! i with
      | Some nl => nl +:+ NL
      | None => line
      end :: patched modified_lines (S i) rest
  end.

(** An effect that leaves the file system alone. *)
Definition quiet (ev : event) : Prop :=
  match ev with
  | Print _ _ | HttpGet _ => True
  | TmpCreate | TmpWrite _ | TmpClose | Move => False
  end.

(** The text strictly between the first [$$SOE] and the first [$$EOE]. *)
Definition between_markers (response : string) : string :=
  Py.slice response (Py.find response "$$SOE" + 5) (Py.find response "$$EOE").

(** The body a line names when the loop takes it for a section header. *)
Definition header_name (raw : string) : option string :=
  let line := Py.strip raw in
  if Py.startswith line "[" && Py.endswith line "]"
  then Some (Py.slice line 1 (-1))
  else None.

(** The last section header among [lines], [acc] when there is none. *)
Fixpoint last_header (acc : option string) (lines : list string) : option string :=
  match lines with
  | [] => acc
  | raw :: rest =>
      last_header (match header_name raw with Some n => Some n | None => acc end) rest
  end.

(** The section line [i] belongs to: the last header at or before it. *)
Definition section_at (lines : list string) (i : nat) : option string :=
  last_header None (take (S i) lines).

(** The names of the section headers of [lines], in order. *)
Definition header_names (lines : list string) : list string :=
  omap header_name lines.

(** The URLs requested, in order. *)
Definition requests (tr : list event) : list string :=
  omap (fun ev => match ev with HttpGet url => Some url | _ => None end) tr.

(** The lines printed by [print(line)], in order. *)
Definition printed (tr : list event) : list string :=
  omap (fun ev => match ev with Print line None => Some line | _ => None end) tr.

(** The URL the client requests for a body, when it requests one. *)
Definition request_url (name : string) : option string :=
  match get_api_params name with
  | inr (Some params) => Some (get_api_url params)
  | _ => None
  end.

(** The string holds no line ending of a text file: neither LF nor CR. *)
Fixpoint newline_free (s : string) : bool :=
  match s with
  | EmptyString => true
  | String c r => negb (Py.is_lf c) && negb (Py.is_cr c) && newline_free r
  end.

(** The lists of lines a text file is read as: every line ends with its one
    LF and holds no other line ending, except that the last one may lack the
    LF and is then not empty. *)
Inductive is_lines : list string -> Prop :=
| lines_nil : is_lines []
| lines_last (l : string) :
    l <> EmptyString -> newline_free l = true -> is_lines [l]
| lines_cons (body : string) (rest : list string) :
    newline_free body = true -> is_lines rest -> is_lines ((body +:+ NL) :: rest).

(** The last [Some] of a list of options, [acc] when there is none. *)
Fixpoint last_some (acc : option string) (os : list (option string)) : option string :=
  match os with
  | [] => acc
  | o :: rest => last_some (match o with Some n => Some n | None => acc end) rest
  end.

(** The fields the patcher rewrites. *)
Inductive field : Type :=
| Eccentricity | Periapsis | Inclination | ArgPe | LongAscNode | MeanAnomaly.

Definition key_of (f : field) : string :=
  match f with
  | Eccentricity => "eccentricity"
  | Periapsis => "periapsis"
  | Inclination => "inclination"
  | ArgPe => "arg_pe"
  | LongAscNode => "long_asc_node"
  | MeanAnomaly => "mean_anomaly"
  end.

(** The value written for a field: the fetched element, the periapsis radius
    converted from km to m. *)
Definition value_of (f : field) (e : Elements) : float :=
  match f with
  | Eccentricity => ec e
  | Periapsis => (qr e * 1e3)%float
  | Inclination => in_ e
  | ArgPe => w e
  | LongAscNode => om e
  | MeanAnomaly => ma e
  end.

(** The stripped line is taken for field [f]: it starts with the key of [f],
    or with [apoapsis] for the eccentricity. *)
Definition names_field (line : string) (f : field) : bool :=
  Py.startswith line (key_of f)
  || match f with
     | Eccentricity => Py.startswith line "apoapsis"
     | _ => false
     end.

Definition fields : list field :=
  [Eccentricity; Periapsis; Inclination; ArgPe; LongAscNode; MeanAnomaly].

(** The stripped line is one of the recognized field lines. *)
Definition recognized (line : string) : bool :=
  existsb (names_field line) fields.

(** ** Sample built-ins, network and files

    Concrete stand-ins for the parameters of the development, used to run the
    definitions on examples. *)

Module Sample.

Fixpoint digits_value (s : string) (acc : Z) : option Z :=
  match s with
  | EmptyString => Some acc
  | String c r =>
      let n := Z.of_nat (nat_of_ascii c) in
      if (48 <=? n) && (n <=? 57) then digits_value r (10 * acc + (n - 48))
      else None
  end.

(** [float] restricted to the unsigned decimal integers below 2^53, which
    binary64 holds exactly; every other token is rejected. *)
Definition float_of_str (s : string) : option float :=
  if Py.is_empty s then None
  else match digits_value s 0 with
       | Some z => if z <? 2 ^ 53 then Some (PrimFloat.of_uint63 (Uint63.of_Z z)) else None
       | None => None
       end.

(** The integer a finite float [m * 2^e] stands for, when it is one. *)
Definition integral_value (m : positive) (e : Z) : option Z :=
  if 0 <=? e then Some (Z.pos m * 2 ^ e)
  else if Z.pos m mod 2 ^ (- e) =? 0 then Some (Z.pos m / 2 ^ (- e))
  else None.

(** The f-string text of a float, restricted to the integral values below
    10^16, which Python prints in full followed by [.0]; the other finite
    values are not needed by the examples and print as [?]. *)
Definition float_repr (x : float) : string :=
  match Prim2SF x with
  | S754_zero false => "0.0"
  | S754_zero true => "-0.0"
  | S754_infinity false => "inf"
  | S754_infinity true => "-inf"
  | S754_nan => "nan"
  | S754_finite sign m e =>
      match integral_value m e with
      | Some z =>
          if z <? 10 ^ 16
          then (if sign then "-" else "") +:+ pretty z +:+ ".0"
          else "?"
      | None => "?"
      end
  end.

Definition url_of (name : string) : string :=
  match get_api_params name with
  | inr (Some params) => get_api_url params
  | _ => EmptyString
  end.

(** A response in the shape of the upstream format: the record sits between
    the markers, a timestamp line first. *)
Definition mercury_text : string :=
  "*******" +:+ NL +:+
  "$$SOE" +:+ NL +:+
  "2460946 = A.D. 2025-Sep-27 16:00:00.0029 TDB" +:+ NL +:+
  " 2 100000000 7" +:+ NL +:+
  " 48 29 5" +:+ NL +:+
  " 6 174 9 10 11 12" +:+ NL +:+
  "$$EOE" +:+ NL +:+
  "*******" +:+ NL.

(** A network in which Mercury answers with a record, Venus with a text that
    has no markers, Earth with a record cut after the timestamp line, Mars
    with a server error, and nothing else can be reached. *)
Definition http_get (url : string) : get_outcome :=
  if String.eqb url (url_of "mercury") then GetReturns (mkResponse 200 mercury_text)
  else if String.eqb url (url_of "venus") then GetReturns (mkResponse 200 "API unavailable")
  else if String.eqb url (url_of "earth") then
    GetReturns (mkResponse 200 ("$$SOE" +:+ NL +:+ "2460946 = A.D." +:+ NL +:+ "$$EOE"))
  else if String.eqb url (url_of "mars") then GetReturns (mkResponse 503 "Service Unavailable")
  else GetRaises "connection refused".

(** A response whose record was cut after the timestamp line. *)
Definition timestamp_only : string :=
  "$$SOE" +:+ NL +:+
  "2460946.166666700 = A.D. 2025-Sep-27 16:00:00.0029 TDB" +:+ NL +:+
  "$$EOE".

Definition presets : string :=
  "# presets" +:+ NL +:+
  "[the_sun]" +:+ NL +:+
  "mass = 1.989e30" +:+ NL +:+
  "[mercury]" +:+ NL +:+
  "mass = 3.3e23" +:+ NL +:+
  "apoapsis = 69816900000.0" +:+ NL +:+
  "  periapsis = 46001200000.0" +:+ NL +:+
  "periapsis_note = 1" +:+ NL +:+
  "mean_anomaly = 0" +:+ NL +:+
  "[venus]" +:+ NL +:+
  "eccentricity = 0.0067" +:+ NL +:+
  "[jupiter]" +:+ NL +:+
  "inclination = 1.3".

(** The sample presets once patched on the sample network. *)
Definition presets_patched : string :=
  "# presets" +:+ NL +:+
  "[the_sun]" +:+ NL +:+
  "mass = 1.989e30" +:+ NL +:+
  "[mercury]" +:+ NL +:+
  "mass = 3.3e23" +:+ NL +:+
  "eccentricity = 2.0" +:+ NL +:+
  "periapsis = 100000000000.0" +:+ NL +:+
  "periapsis = 100000000000.0" +:+ NL +:+
  "mean_anomaly = 174.0" +:+ NL +:+
  "[venus]" +:+ NL +:+
  "eccentricity = 0.0067" +:+ NL +:+
  "[jupiter]" +:+ NL +:+
  "inclination = 1.3".

(** Presets stored with CR LF line endings. *)
Definition presets_crlf : string :=
  "# presets" +:+ CR +:+ NL +:+
  "[mercury]" +:+ CR +:+ NL +:+
  "mass = 3.3e23" +:+ CR +:+ NL +:+
  "periapsis = 46001200000.0" +:+ CR +:+ NL.

(** A response whose markers come in the wrong order. *)
Definition markers_swapped : string :=
  "$$EOE" +:+ NL +:+ " 1 2 3 4 5 6 7 8" +:+ NL +:+ "$$SOE".

(** A record whose sixth number is not available. *)
Definition record_with_gap : string :=
  "$$SOE" +:+ NL +:+
  "2460946 = A.D. 2025-Sep-27" +:+ NL +:+
  " 1 2 3 4 5 n.a. 7 8" +:+ NL +:+
  "$$EOE".

End Sample.

Section Patcher.

#[local] Set Default Proof Using "Type".

(** [float(token)]; [None] stands for the [ValueError]. *)
Variable float_of_str : string -> option float.
(** The text of a float inside an f-string. *)
Variable float_repr : float -> string.
(** The outcome of the GET of each URL.  A run requests a URL at most once:
    a section name is removed from [remaining_bodies] before its fetch, and a
    second header of that name raises before any request. *)
Variable http_get : string -> get_outcome.

(** [[float(el) for el in tokens]] *)
Fixpoint floats_of (tokens : list string) : result (list float) :=
  match tokens with
  | [] => inr []
  | el :: rest =>
      match float_of_str el with
      | None => inl (ValueError el)
      | Some x => let? xs := floats_of rest in inr (x :: xs)
      end
  end.

Definition parse_ephemeris (ephemeris_text : string) : result (option Elements) :=
  let ELEMENTS_START_TEXT := "$$SOE" in
  let ELEMENTS_END_TEXT := "$$EOE" in
  let start_idx := Py.find ephemeris_text ELEMENTS_START_TEXT in
  let end_idx := Py.find ephemeris_text ELEMENTS_END_TEXT in
  if (start_idx =? -1) || (end_idx =? -1) then inr None
  else
    let data_text :=
      Py.strip (Py.slice ephemeris_text
                  (start_idx + Z.of_nat (String.length ELEMENTS_START_TEXT))
                  end_idx) in
    let data_lines := Py.splitlines data_text in
    if (length data_lines <? 1)%nat then inr None
    else
      let elements_wsv := Py.strip (Py.join " " (drop 1 data_lines)) in
      let? elements_arr := floats_of (Py.split elements_wsv) in
      let? ec := index elements_arr 0 in
      let? qr := index elements_arr 1 in
      let? in_ := index elements_arr 2 in
      let? om := index elements_arr 3 in
      let? w := index elements_arr 4 in
      let? ma := index elements_arr 7 in
      inr (Some (mkElements ec qr in_ om w ma)).

Definition session_get (url : string) : M Response :=
  let* _ := emit (HttpGet url) in
  match http_get url with
  | GetRaises detail => raise (RequestException detail)
  | GetReturns r => ret r
  end.

Definition get_elements (name : string) : M (option Elements) :=
  let* params := lift (get_api_params name) in
  match params with
  | None => ret None
  | Some params =>
      let url := get_api_url params in
      let* response := session_get url in
      let* _ := lift (raise_for_status response) in
      let* elements := lift (parse_ephemeris (text response)) in
      match elements with
      | None =>
          raise (Exception
                   ("Could not parse ephemeris. Could this be an API error?" +:+ NL +:+
                    "Server response:" +:+ NL +:+
                    text response))
      | Some e => ret (Some e)
      end
  end.

(** The chain of [if]s that computes [new_line] from the stripped line; a
    later [if] overrides an earlier one. *)
Definition new_line (current_elements : Elements) (line : string) : option string :=
  let new_line := None in
  let new_line :=
    if Py.startswith line "apoapsis" || Py.startswith line "eccentricity"
    then Some ("eccentricity = " +:+ float_repr (ec current_elements))
    else new_line in
  let new_line :=
    if Py.startswith line "periapsis"
    then Some ("periapsis = " +:+ float_repr (qr current_elements * 1e3)%float)
    else new_line in
  let new_line :=
    if Py.startswith line "inclination"
    then Some ("inclination = " +:+ float_repr (in_ current_elements))
    else new_line in
  let new_line :=
    if Py.startswith line "arg_pe"
    then Some ("arg_pe = " +:+ float_repr (w current_elements))
    else new_line in
  let new_line :=
    if Py.startswith line "long_asc_node"
    then Some ("long_asc_node = " +:+ float_repr (om current_elements))
    else new_line in
  let new_line :=
    if Py.startswith line "mean_anomaly"
    then Some ("mean_anomaly = " +:+ float_repr (ma current_elements))
    else new_line in
  new_line.

(** The part of the loop body run on a section header: lines 205 to 215. *)
Definition enter_section (st : scan_state) (line : string) : M scan_state :=
  let current_body := Py.slice line 1 (-1) in
  let* remaining := lift (set_remove (remaining_bodies st) current_body) in
  let st := mkScan (Some current_body) None remaining (modified_lines st) in
  try_except
    (let* _ := emit (Print ("Fetching API for " +:+ current_body +:+ "...") None) in
     let* elements := get_elements current_body in
     ret (mkScan (Some current_body) elements remaining (modified_lines st)))
    (fun exception =>
     let* _ := emit (Print ("Error occurred fetching API for data about " +:+ current_body)
                           (Some exception)) in
     ret st).

Definition is_header (line : string) : bool :=
  Py.startswith line "[" && Py.endswith line "]".

(** One iteration of the first loop. *)
Definition scan_line (st : scan_state) (line_num : nat) (raw : string) : M scan_state :=
  let line := Py.strip raw in
  let* st := (if is_header line then enter_section st line else ret st) in
  match current_elements st with
  | None => ret st
  | Some elements =>
      match new_line elements line with
      | Some nl =>
          ret (mkScan (current_body st) (current_elements st) (remaining_bodies st)
                      (<[line_num := nl]> (modified_lines st)))
      | None => ret st
      end
  end.

(** [for line_num, line in enumerate(f)], from [line_num] on. *)
Fixpoint scan (st : scan_state) (line_num : nat) (lines : list string) : M scan_state :=
  match lines with
  | [] => ret st
  | raw :: rest =>
      let* st := scan_line st line_num raw in
      scan st (S line_num) rest
  end.

Fixpoint print_bodies (bodies : list string) : M unit :=
  match bodies with
  | [] => ret tt
  | body :: rest =>
      let* _ := emit (Print ("  - " +:+ body) None) in
      print_bodies rest
  end.

(** The desynchronization report: lines 235 to 238. *)
Definition report (remaining_bodies : gset string) : M unit :=
  if decide (remaining_bodies = ∅) then ret tt
  else
    let* _ := emit (Print "ERROR: The following bodies are in BODY_MAP but not present in the TOML file (desynchronization):" None) in
    print_bodies (sorted remaining_bodies).

(** The second loop: [for i, line in enumerate(src)], from [i] on. *)
Fixpoint write_back (modified_lines : gmap nat string) (i : nat) (lines : list string) : M unit :=
  match lines with
  | [] => ret tt
  | line :: rest =>
      let* _ := (match modified_lines !! i with
                 | Some nl => emit (TmpWrite (nl +:+ NL))
                 | None => emit (TmpWrite line)
                 end) in
      write_back modified_lines (S i) rest
  end.

Definition initial_state : scan_state :=
  mkScan None None (dom BODY_MAP) ∅.

(** [open(toml_path, "r")] *)
Definition open_toml (toml : option string) : M string :=
  match toml with
  | None => raise OSError
  | Some content => ret content
  end.

(** The [__main__] block, run on the content of the config file. *)
Definition main (toml : option string) : M unit :=
  let* f := open_toml toml in
  let* st := scan initial_state 0 (Py.file_lines f) in
  let* _ := report (remaining_bodies st) in
  let* src := open_toml toml in
  let* _ := emit TmpCreate in
  let* _ := write_back (modified_lines st) 0 (Py.file_lines src) in
  let* _ := emit TmpClose in
  emit Move.

(** The config file once the run is over, whether it completed or not. *)
Definition file_after (toml : option string) : option string :=
  toml_file (fs_run (mkFs toml None) (trace (main toml))).

(** What the fetch of a section leaves in [current_elements]: the elements,
    or nothing when the body has no lookup or the fetch raised. *)
Definition fetched (name : string) : option Elements :=
  match outcome (get_elements name) with
  | inr elements => elements
  | inl _ => None
  end.

(** The elements in force at line [i]: those fetched for its section. *)
Definition section_elements (lines : list string) (i : nat) : option Elements :=
  section_at lines i ≫= fetched.

(** The state a section header leaves, once its name was removed from the
    remaining bodies. *)
Definition entered (st : scan_state) (name : string) : scan_state :=
  mkScan (Some name) (fetched name) (remaining_bodies st ∖ {[name]}) (modified_lines st).

(** What the field checks do to the state at line [k]. *)
Definition patch_line (st : scan_state) (k : nat) (raw : string) : scan_state :=
  match current_elements st ≫= (fun e => new_line e (Py.strip raw)) with
  | Some nl =>
      mkScan (current_body st) (current_elements st) (remaining_bodies st)
             (<[k := nl]> (modified_lines st))
  | None => st
  end.

(** ** Properties of the string primitives *)

Lemma app_cons (c : ascii) (s t : string) :
  String c s +:+ t = String c (s +:+ t).
Proof. reflexivity. Qed.

Lemma app_empty_l (t : string) : EmptyString +:+ t = t.
Proof. reflexivity. Qed.

Lemma append_assoc (a b c : string) : (a +:+ b) +:+ c = a +:+ (b +:+ c).
Proof. induction a as [|x a IH]; [reflexivity|]. rewrite !app_cons, IH. reflexivity. Qed.

Lemma append_empty_r (a : string) : a +:+ EmptyString = a.
Proof. induction a as [|x a IH]; [reflexivity|]. rewrite app_cons, IH. reflexivity. Qed.

Lemma prefix_app (p s : string) :
  String.prefix p s = true <-> exists post, s = p +:+ post.
Proof.
  revert s. induction p as [|c p IH]; intros s.
  - split; [intros _; exists s; reflexivity | intros _; destruct s; reflexivity].
  - destruct s as [|d s]; simpl.
    + split; [discriminate | intros [post H]; discriminate].
    + destruct (Ascii.ascii_dec c d) as [->|Hne].
      * rewrite IH. split; intros [post H]; exists post; rewrite app_cons in *.
        -- now rewrite H.
        -- now inversion H.
      * split; [discriminate | intros [post H]; rewrite app_cons in H; congruence].
Qed.

Lemma contains_cons (c : ascii) (s sub : string) :
  Py.contains (String c s) sub <->
  String.prefix sub (String c s) = true \/ Py.contains s sub.
Proof.
  unfold Py.contains. split.
  - intros ([|d pre] & post & H).
    + left. apply prefix_app. eauto.
    + right. exists pre, post. rewrite app_cons in H. congruence.
  - intros [H | (pre & post & ->)].
    + apply prefix_app in H as [post H]. exists EmptyString, post. exact H.
    + exists (String c pre), post. reflexivity.
Qed.

Lemma contains_empty (sub : string) :
  Py.contains EmptyString sub <-> String.prefix sub EmptyString = true.
Proof.
  unfold Py.contains. split.
  - intros (pre & post & H). destruct pre; [|discriminate].
    apply prefix_app. exists post. exact H.
  - intros H. apply prefix_app in H as [post H]. exists EmptyString, post. exact H.
Qed.

Lemma find_from_absent (s sub : string) (i : Z) :
  0 <= i -> (Py.find_from s sub i = -1 <-> ~ Py.contains s sub).
Proof.
  revert i. induction s as [|c s IH]; intros i Hi.
  - change (Py.find_from EmptyString sub i)
      with (if String.prefix sub EmptyString then i else -1).
    rewrite contains_empty.
    destruct (String.prefix sub EmptyString); split; intros H; try lia; try congruence.
  - change (Py.find_from (String c s) sub i)
      with (if String.prefix sub (String c s) then i else Py.find_from s sub (i + 1)).
    rewrite contains_cons.
    destruct (String.prefix sub (String c s)) eqn:Hp.
    + split; [lia | intros H; exfalso; apply H; left; reflexivity].
    + rewrite IH by lia. split.
      * intros H [H' | H']; [discriminate | exact (H H')].
      * intros H H'. apply H. right. exact H'.
Qed.

(** [find] returns -1 exactly when the substring does not occur. *)
Lemma find_absent (s sub : string) :
  Py.find s sub = -1 <-> ~ Py.contains s sub.
Proof. apply find_from_absent. lia. Qed.

Lemma find_from_present (s sub : string) (i : Z) :
  0 <= i -> Py.find_from s sub i <> -1 -> Py.contains s sub.
Proof.
  revert i. induction s as [|c s IH]; intros i Hi.
  - change (Py.find_from EmptyString sub i)
      with (if String.prefix sub EmptyString then i else -1).
    destruct (String.prefix sub EmptyString) eqn:Hp; [|congruence].
    intros _. apply contains_empty. exact Hp.
  - change (Py.find_from (String c s) sub i)
      with (if String.prefix sub (String c s) then i else Py.find_from s sub (i + 1)).
    rewrite contains_cons.
    destruct (String.prefix sub (String c s)) eqn:Hp; [now left|].
    intros H. right. apply (IH (i + 1)); [lia | exact H].
Qed.

(** [find] returns an index exactly when the substring occurs. *)
Lemma find_present (s sub : string) :
  Py.find s sub <> -1 <-> Py.contains s sub.
Proof.
  split.
  - apply find_from_present. lia.
  - intros H E. apply find_absent in E. exact (E H).
Qed.

Lemma split_space (c : ascii) (r : string) :
  Py.isspace c = true -> Py.split (String c r) = Py.split r.
Proof.
  intros Hc. unfold Py.split. simpl. destruct (Py.split_go r) as [cur toks].
  rewrite Hc. reflexivity.
Qed.

Lemma split_lstrip (s : string) : Py.split (Py.lstrip s) = Py.split s.
Proof.
  induction s as [|c r IH]; [reflexivity|]. simpl.
  destruct (Py.isspace c) eqn:Hc; [|reflexivity].
  rewrite IH. symmetry. apply split_space. exact Hc.
Qed.

Lemma split_go_cons (c : ascii) (r : string) :
  Py.split_go (String c r) =
  let '(cur, toks) := Py.split_go r in
  if Py.isspace c
  then (EmptyString, if Py.is_empty cur then toks else cur :: toks)
  else (String c cur, toks).
Proof. reflexivity. Qed.

Lemma rstrip_cons (c : ascii) (r : string) :
  Py.rstrip (String c r) =
  if Py.isspace c && Py.is_empty (Py.rstrip r) then EmptyString
  else String c (Py.rstrip r).
Proof. reflexivity. Qed.

Lemma is_empty_true (s : string) : Py.is_empty s = true -> s = EmptyString.
Proof. destruct s; [reflexivity | discriminate]. Qed.

Lemma split_go_rstrip (s : string) : Py.split_go (Py.rstrip s) = Py.split_go s.
Proof.
  induction s as [|c r IH]; [reflexivity|].
  rewrite rstrip_cons.
  destruct (Py.isspace c && Py.is_empty (Py.rstrip r)) eqn:H.
  - apply andb_prop in H as [Hc He]. apply is_empty_true in He.
    rewrite split_go_cons, <- IH, He, Hc. reflexivity.
  - rewrite !split_go_cons, IH. reflexivity.
Qed.

(** Stripping a string does not change its tokens. *)
Lemma split_strip (s : string) : Py.split (Py.strip s) = Py.split s.
Proof.
  unfold Py.strip. rewrite <- (split_lstrip s).
  unfold Py.split. rewrite split_go_rstrip. reflexivity.
Qed.

Lemma joined_push_char (c : ascii) (ls : list string) :
  joined (Py.push_char c ls) = String c (joined ls).
Proof. destruct ls; reflexivity. Qed.

(** Induction on a string that can look two characters ahead. *)
Lemma string_ind2 (P : string -> Prop) :
  P EmptyString ->
  (forall c r, P r -> (forall c' r', r = String c' r' -> P r') -> P (String c r)) ->
  forall s, P s.
Proof.
  intros H0 Hstep s.
  enough (H : P s /\ (forall c' r', s = String c' r' -> P r')) by apply H.
  induction s as [|c r [IH1 IH2]].
  - split; [exact H0 | discriminate].
  - split; [apply Hstep; assumption|].
    intros c' r' Heq. injection Heq as _ <-. exact IH1.
Qed.

(** The stored lines of a file, put end to end, are the file. *)
Lemma joined_raw_lines (s : string) : joined (Py.raw_lines s) = s.
Proof.
  induction s as [|c r IH IH'] using string_ind2; [reflexivity|]. simpl.
  destruct (Py.is_lf c).
  - simpl. rewrite IH. reflexivity.
  - destruct (Py.is_cr c).
    + destruct r as [|c' r']; [reflexivity|].
      destruct (Py.is_lf c').
      * simpl. rewrite (IH' c' r' eq_refl). reflexivity.
      * simpl. simpl in IH. rewrite IH. reflexivity.
    + rewrite joined_push_char, IH. reflexivity.
Qed.

Lemma is_lf_newline (c : ascii) : Py.is_lf c = true -> String c EmptyString = NL.
Proof.
  unfold Py.is_lf, NL. intros H. apply Nat.eqb_eq in H.
  rewrite <- H, ascii_nat_embedding. reflexivity.
Qed.

Lemma is_lf_not_cr (c : ascii) : Py.is_lf c = true -> Py.is_cr c = false.
Proof.
  unfold Py.is_lf, Py.is_cr. intros H. apply Nat.eqb_eq in H. rewrite H. reflexivity.
Qed.

Lemma translate_push_char (c : ascii) (ls : list string) :
  Py.is_cr c = false ->
  map Py.translate_ending (Py.push_char c ls) = Py.push_char c (map Py.translate_ending ls).
Proof. intros Hc. destruct ls as [|l ls]; simpl; rewrite Hc; reflexivity. Qed.

(** Reading in text mode hands over the stored lines, each with its line
    ending translated to LF. *)
Lemma file_lines_raw (s : string) :
  Py.file_lines s = map Py.translate_ending (Py.raw_lines s).
Proof.
  induction s as [|c r IH IH'] using string_ind2; [reflexivity|]. simpl.
  destruct (Py.is_lf c) eqn:Hlf.
  - simpl. rewrite (is_lf_not_cr _ Hlf), IH. reflexivity.
  - destruct (Py.is_cr c) eqn:Hcr.
    + destruct r as [|c' r']; [simpl; rewrite Hcr; reflexivity|].
      destruct (Py.is_lf c') eqn:Hlf'.
      * simpl. rewrite Hcr, (IH' c' r' eq_refl), (is_lf_newline _ Hlf'). reflexivity.
      * simpl map. simpl Py.translate_ending. rewrite Hcr, IH. reflexivity.
    + rewrite translate_push_char, IH by exact Hcr. reflexivity.
Qed.

(** A line without CR is handed over as it is stored. *)
Lemma translate_ending_cr_free (l : string) :
  Py.cr_free l = true -> Py.translate_ending l = l.
Proof.
  induction l as [|c l IH]; [reflexivity|]. simpl. intros H.
  apply andb_true_iff in H as [Hc Hl]. apply negb_true_iff in Hc.
  rewrite Hc, (IH Hl). reflexivity.
Qed.

(** On a file without CR the lines read are the stored lines. *)
Lemma file_lines_cr_free (s : string) :
  Py.cr_free s = true -> Py.file_lines s = Py.raw_lines s.
Proof.
  induction s as [|c r IH]; [reflexivity|]. simpl. intros H.
  apply andb_true_iff in H as [Hc Hr]. apply negb_true_iff in Hc.
  rewrite Hc, (IH Hr). reflexivity.
Qed.

(** The lines read from a file without CR, put end to end, are the file. *)
Lemma joined_file_lines (s : string) :
  Py.cr_free s = true -> joined (Py.file_lines s) = s.
Proof. intros H. rewrite (file_lines_cr_free _ H). apply joined_raw_lines. Qed.

Lemma is_lf_space (c : ascii) : Py.is_lf c = true -> Py.isspace c = true.
Proof.
  unfold Py.is_lf. intros H. apply Nat.eqb_eq in H.
  unfold Py.isspace. rewrite H. reflexivity.
Qed.

Lemma is_cr_space (c : ascii) : Py.is_cr c = true -> Py.isspace c = true.
Proof.
  unfold Py.is_cr. intros H. apply Nat.eqb_eq in H.
  unfold Py.isspace. rewrite H. reflexivity.
Qed.

Lemma lstrip_blank_cons (c : ascii) (t : string) :
  Py.lstrip (String c t) = EmptyString -> Py.isspace c = true /\ Py.lstrip t = EmptyString.
Proof. simpl. destruct (Py.isspace c); [auto | discriminate]. Qed.

Lemma rstrip_blank (t : string) : Py.lstrip t = EmptyString -> Py.rstrip t = EmptyString.
Proof.
  induction t as [|c t IH]; [reflexivity|]. intros H.
  apply lstrip_blank_cons in H as [Hc Ht].
  rewrite rstrip_cons, Hc, (IH Ht). reflexivity.
Qed.

Lemma rstrip_app_blank (s t : string) :
  Py.lstrip t = EmptyString -> Py.rstrip (s +:+ t) = Py.rstrip s.
Proof.
  intros Ht. induction s as [|c s IH]; [apply rstrip_blank, Ht|].
  rewrite app_cons, !rstrip_cons, IH. reflexivity.
Qed.

(** Whitespace at the end of a string does not survive [strip]. *)
Lemma strip_app_blank (s t : string) :
  Py.lstrip t = EmptyString -> Py.strip (s +:+ t) = Py.strip s.
Proof.
  intros Ht. unfold Py.strip. induction s as [|c s IH].
  - change (EmptyString +:+ t) with t. rewrite Ht. reflexivity.
  - rewrite app_cons. simpl Py.lstrip. destruct (Py.isspace c); [exact IH|].
    rewrite <- app_cons. apply rstrip_app_blank, Ht.
Qed.

(** A stored line is some text followed by whitespace, its line ending, and
    is read as the same text followed by whitespace. *)
Lemma raw_line_shape (s l : string) :
  l ∈ Py.raw_lines s ->
  exists p e e',
    l = p +:+ e /\ Py.translate_ending l = p +:+ e' /\
    Py.lstrip e = EmptyString /\ Py.lstrip e' = EmptyString.
Proof.
  revert l. induction s as [|c r IH IH'] using string_ind2; intros l Hin; [inversion Hin|].
  simpl in Hin. destruct (Py.is_lf c) eqn:Hlf.
  - apply elem_of_cons in Hin as [-> | Hin]; [|apply IH, Hin].
    exists EmptyString, (String c EmptyString), (String c EmptyString).
    simpl. rewrite (is_lf_not_cr _ Hlf), (is_lf_space _ Hlf). auto.
  - destruct (Py.is_cr c) eqn:Hcr.
    + destruct r as [|c' r'].
      * apply list_elem_of_singleton in Hin as ->.
        exists EmptyString, (String c EmptyString), NL.
        simpl. rewrite Hcr, (is_cr_space _ Hcr). auto.
      * destruct (Py.is_lf c') eqn:Hlf'.
        -- apply elem_of_cons in Hin as [-> | Hin]; [|apply (IH' c' r' eq_refl), Hin].
           exists EmptyString, (String c (String c' EmptyString)), NL.
           simpl. rewrite Hcr, (is_cr_space _ Hcr), (is_lf_space _ Hlf'). auto.
        -- apply elem_of_cons in Hin as [-> | Hin]; [|apply IH, Hin].
           exists EmptyString, (String c EmptyString), NL.
           simpl. rewrite Hcr, (is_cr_space _ Hcr). auto.
    + destruct (Py.raw_lines r) as [|l0 ls] eqn:Hr.
      * apply list_elem_of_singleton in Hin as ->.
        exists (String c EmptyString), EmptyString, EmptyString.
        simpl. rewrite Hcr. auto.
      * simpl in Hin. apply elem_of_cons in Hin as [-> | Hin].
        -- destruct (IH l0) as (p & e & e' & Hl & Ht & He & He'); [apply list_elem_of_here|].
           exists (String c p), e, e'. simpl. rewrite Hcr, Ht, !app_cons, <- Hl. auto.
        -- apply IH. apply list_elem_of_further, Hin.
Qed.

(** Stripping a line as read gives the stripped stored line. *)
Lemma strip_translate_ending (s l : string) :
  l ∈ Py.raw_lines s -> Py.strip (Py.translate_ending l) = Py.strip l.
Proof.
  intros Hin. destruct (raw_line_shape _ _ Hin) as (p & e & e' & Hl & Ht & He & He').
  rewrite Ht, Hl, !strip_app_blank by assumption. reflexivity.
Qed.

(** The line read at a position is the stored line there, its line ending
    translated. *)
Lemma file_lines_lookup (s : string) (i : nat) (stored : string) :
  Py.raw_lines s !! i = Some stored ->
  Py.file_lines s !! i = Some (Py.translate_ending stored).
Proof.
  intros H. rewrite file_lines_raw.
  change (map Py.translate_ending (Py.raw_lines s))
    with (Py.translate_ending <$> Py.raw_lines s).
  rewrite list_lookup_fmap, H. reflexivity.
Qed.

Lemma length_append (a b : string) :
  String.length (a +:+ b) = (String.length a + String.length b)%nat.
Proof. induction a as [|c a IH]; [reflexivity|]. rewrite app_cons. simpl. rewrite IH. reflexivity. Qed.

Lemma substring_skip (pre s : string) (m : nat) :
  substring (String.length pre) m (pre +:+ s) = substring 0 m s.
Proof. induction pre as [|c pre IH]; [reflexivity|]. rewrite app_cons. simpl. exact IH. Qed.

Lemma substring_prefix (body post : string) :
  substring 0 (String.length body) (body +:+ post) = body.
Proof.
  induction body as [|c body IH].
  - destruct post; reflexivity.
  - rewrite app_cons. simpl. rewrite IH. reflexivity.
Qed.

(** Slicing a string at the two ends of a part of it gives that part. *)
Lemma slice_middle (pre body post : string) :
  Py.slice (pre +:+ body +:+ post)
           (Z.of_nat (String.length pre))
           (Z.of_nat (String.length pre + String.length body)) = body.
Proof.
  unfold Py.slice, Py.slice_bound. cbv zeta. rewrite !length_append.
  destruct (Z.ltb_spec (Z.of_nat (String.length pre)) 0) as [?|_]; [lia|].
  destruct (Z.ltb_spec (Z.of_nat (String.length pre + String.length body)) 0) as [?|_]; [lia|].
  rewrite !Z.min_l by lia.
  destruct (Z.ltb_spec (Z.of_nat (String.length pre))
                       (Z.of_nat (String.length pre + String.length body))) as [Hlt|Hge].
  - rewrite Nat2Z.id.
    replace (Z.to_nat (Z.of_nat (String.length pre + String.length body)
                       - Z.of_nat (String.length pre)))
      with (String.length body) by lia.
    rewrite substring_skip. apply substring_prefix.
  - destruct body; [reflexivity | simpl in Hge; lia].
Qed.

(** When the first [$$SOE] has [pre] before it and the first [$$EOE] comes
    [body] later, the text between the markers is [body]. *)
Lemma between_markers_middle (pre body post : string) :
  let response := pre +:+ "$$SOE" +:+ body +:+ "$$EOE" +:+ post in
  Py.find response "$$SOE" = Z.of_nat (String.length pre) ->
  Py.find response "$$EOE" = Z.of_nat (String.length pre + 5 + String.length body) ->
  between_markers response = body.
Proof.
  intros response Hs He. unfold between_markers. rewrite Hs, He. unfold response.
  rewrite <- (append_assoc pre "$$SOE").
  replace (Z.of_nat (String.length pre) + 5)
    with (Z.of_nat (String.length (pre +:+ "$$SOE")))
    by (rewrite length_append; simpl; lia).
  replace (String.length pre + 5 + String.length body)%nat
    with (String.length (pre +:+ "$$SOE") + String.length body)%nat
    by (rewrite length_append; simpl; lia).
  apply slice_middle.
Qed.

(** The primitives on inputs whose results were read off Python. *)
Example splitlines_example :
  Py.splitlines ("a" +:+ NL +:+ NL +:+ "b" +:+ String (ascii_of_nat 13) NL +:+ " c " +:+ NL)
  = ["a"; ""; "b"; " c "].
Proof. reflexivity. Qed.

Example splitlines_leading_newline :
  Py.splitlines (NL +:+ "T" +:+ NL) = [""; "T"].
Proof. reflexivity. Qed.

Example raw_lines_example :
  Py.raw_lines ("a" +:+ CR +:+ NL +:+ "b" +:+ CR +:+ "c" +:+ NL +:+ NL +:+ "d")
  = ["a" +:+ CR +:+ NL; "b" +:+ CR; "c" +:+ NL; NL; "d"].
Proof. reflexivity. Qed.

Example file_lines_example :
  Py.file_lines ("a" +:+ CR +:+ NL +:+ "b" +:+ CR +:+ "c" +:+ NL +:+ NL +:+ "d")
  = ["a" +:+ NL; "b" +:+ NL; "c" +:+ NL; NL; "d"].
Proof. reflexivity. Qed.

Example split_example : Py.split ("  a  bc " +:+ NL +:+ "d") = ["a"; "bc"; "d"].
Proof. reflexivity. Qed.

Example slice_header_example : Py.slice "[mercury]" 1 (-1) = "mercury".
Proof. reflexivity. Qed.

Example slice_empty_header_example : Py.slice "[]" 1 (-1) = "".
Proof. reflexivity. Qed.

Example find_example :
  Py.find "xx$$SOEyy" "$$SOE" = 2 /\ Py.find "xx$$SOyy" "$$SOE" = -1 /\ Py.find "" "" = 0.
Proof. repeat split. Qed.

Example urlencode_example :
  Url.urlencode [("COMMAND", "'1;'"); ("CENTER", "@10"); ("x y", "~_.-")]
  = "COMMAND=%271%3B%27&CENTER=%4010&x+y=~_.-".
Proof. reflexivity. Qed.

Example sorted_example :
  sorted {[ "b"; "B"; "a_"; "a" ]} = ["B"; "a"; "a_"; "b"].
Proof. vm_compute. reflexivity. Qed.

(** ** The monad *)

Lemma bind_ret_l {A B} (x : A) (k : A -> M B) : bind (ret x) k = k x.
Proof. unfold bind, ret. destruct (k x). reflexivity. Qed.

Lemma bind_lift_inr {A B} (x : A) (k : A -> M B) : bind (lift (inr x)) k = k x.
Proof. apply (bind_ret_l x k). Qed.

Lemma bind_assoc {A B C} (m : M A) (f : A -> M B) (g : B -> M C) :
  bind (bind m f) g = bind m (fun x => bind (f x) g).
Proof.
  destruct m as [tr [e|x]]; [reflexivity|]. simpl.
  destruct (f x) as [tr1 [e|y]]; [reflexivity|]. simpl.
  destruct (g y) as [tr2 r]. rewrite app_assoc. reflexivity.
Qed.

Lemma bind_ext {A B} (m : M A) (f g : A -> M B) :
  (forall x, f x = g x) -> bind m f = bind m g.
Proof. intros H. destruct m as [tr [e|x]]; [reflexivity|]. simpl. rewrite H. reflexivity. Qed.

(** A sequence succeeds exactly when both parts do, and their traces add up. *)
Lemma bind_ok {A B} (m : M A) (k : A -> M B) (tr : list event) (y : B) :
  bind m k = (tr, inr y) ->
  exists tr1 x tr2, m = (tr1, inr x) /\ k x = (tr2, inr y) /\ tr = tr1 ++ tr2.
Proof.
  destruct m as [tr1 [e|x]]; simpl; [discriminate|].
  destruct (k x) as [tr2 r] eqn:Hk. intros H. inversion H; subst.
  exists tr1, x, tr2. auto.
Qed.

(** A sequence fails when its first part does, or when its second part does
    after the first succeeded. *)
Lemma bind_err {A B} (m : M A) (k : A -> M B) (tr : list event) (e : exn) :
  bind m k = (tr, inl e) ->
  m = (tr, inl e) \/
  exists tr1 x tr2, m = (tr1, inr x) /\ k x = (tr2, inl e) /\ tr = tr1 ++ tr2.
Proof.
  destruct m as [tr1 [e1|x]]; simpl.
  - intros H. inversion H; subst. now left.
  - destruct (k x) as [tr2 r] eqn:Hk. intros H. inversion H; subst.
    right. exists tr1, x, tr2. auto.
Qed.

(** ** The ephemeris parser *)

Lemma markers_found (response : string) :
  Py.contains response "$$SOE" -> Py.contains response "$$EOE" ->
  (Py.find response "$$SOE" =? -1) || (Py.find response "$$EOE" =? -1) = false.
Proof.
  intros Hs He. apply find_present in Hs, He.
  apply orb_false_intro; apply Z.eqb_neq; assumption.
Qed.

(** Once the markers are found and the stripped text between them has a
    first line, the parser is the decoding of the tokens after that line. *)
Lemma parse_ephemeris_record (response first : string) (rest : list string) :
  Py.contains response "$$SOE" -> Py.contains response "$$EOE" ->
  Py.splitlines (Py.strip (between_markers response)) = first :: rest ->
  parse_ephemeris response =
  let? elements_arr := floats_of (Py.split (Py.join " " rest)) in
  let? ec := index elements_arr 0 in
  let? qr := index elements_arr 1 in
  let? in_ := index elements_arr 2 in
  let? om := index elements_arr 3 in
  let? w := index elements_arr 4 in
  let? ma := index elements_arr 7 in
  inr (Some (mkElements ec qr in_ om w ma)).
Proof.
  intros Hs He Hlines. unfold parse_ephemeris. cbv zeta.
  rewrite (markers_found _ Hs He).
  change (Z.of_nat (String.length "$$SOE")) with 5.
  fold (between_markers response). rewrite Hlines.
  change (length (first :: rest) <? 1)%nat with false. cbv iota.
  change (drop 1 (first :: rest)) with rest.
  rewrite split_strip. reflexivity.
Qed.

(** A record of fewer than eight numbers makes the parser raise. *)
Lemma parse_ephemeris_short (response first : string) (rest : list string) (arr : list float) :
  Py.contains response "$$SOE" -> Py.contains response "$$EOE" ->
  Py.splitlines (Py.strip (between_markers response)) = first :: rest ->
  floats_of (Py.split (Py.join " " rest)) = inr arr ->
  (length arr < 8)%nat ->
  parse_ephemeris response = inl IndexError.
Proof.
  intros Hs He Hlines Harr Hlen.
  rewrite (parse_ephemeris_record _ _ _ Hs He Hlines), Harr. simpl.
  do 8 (destruct arr as [|? arr]; [reflexivity|]).
  simpl in Hlen. lia.
Qed.

(** ** The registry and the client *)

Lemma get_api_params_pair (name this parent : string) :
  BODY_MAP !! name = Some (Some (this, parent)) ->
  get_api_params name =
  inr (Some (API_BASE_PARAMS ++
             [("COMMAND", "'" +:+ this +:+ "'"); ("CENTER", "@" +:+ parent)])).
Proof. intros H. unfold get_api_params. rewrite H. reflexivity. Qed.

Lemma get_elements_no_lookup (name : string) :
  BODY_MAP !! name = Some None -> get_elements name = ([], inr None).
Proof. intros H. unfold get_elements, get_api_params. rewrite H. reflexivity. Qed.

Lemma get_elements_unknown (name : string) :
  BODY_MAP !! name = None ->
  get_elements name =
  ([], inl (Exception ("Body '" +:+ name +:+ "' is not in BODY_MAP (unrecognized body)"))).
Proof. intros H. unfold get_elements, get_api_params. rewrite H. reflexivity. Qed.

(** The client sends at most one request, and nothing else. *)
Lemma get_elements_trace (name : string) :
  trace (get_elements name) = [] \/ exists url, trace (get_elements name) = [HttpGet url].
Proof.
  unfold get_elements. destruct (get_api_params name) as [e|[params|]]; simpl; auto.
  right. exists (get_api_url params). unfold session_get. simpl.
  destruct (http_get (get_api_url params)) as [detail|r]; simpl; [reflexivity|].
  destruct (raise_for_status r) as [e|[]]; simpl; [reflexivity|].
  destruct (parse_ephemeris (text r)) as [e|[el|]]; reflexivity.
Qed.

(** ** The scanning loop *)

Lemma get_elements_quiet (name : string) : Forall quiet (trace (get_elements name)).
Proof.
  destruct (get_elements_trace name) as [-> | [url ->]]; repeat constructor.
Qed.

Lemma enter_section_ok (st : scan_state) (line : string) (tr : list event) (st' : scan_state) :
  enter_section st line = (tr, inr st') ->
  (Py.slice line 1 (-1) ∈ remaining_bodies st) /\
  st' = entered st (Py.slice line 1 (-1)) /\ Forall quiet tr.
Proof.
  unfold enter_section, set_remove, entered, fetched.
  set (name := Py.slice line 1 (-1)).
  destruct (decide (name ∈ remaining_bodies st)) as [Hin|Hout]; [|discriminate].
  rewrite bind_lift_inr.
  pose proof (get_elements_quiet name) as Hq.
  destruct (get_elements name) as [trg [e|el]]; simpl in *; intros H; inversion H; subst;
    (split; [exact Hin | split; [reflexivity|]]).
  - constructor; [exact I|]. apply Forall_app. split; [exact Hq | repeat constructor].
  - constructor; [exact I|]. rewrite app_nil_r. exact Hq.
Qed.

Lemma enter_section_err (st : scan_state) (line : string) (tr : list event) (e : exn) :
  enter_section st line = (tr, inl e) ->
  (Py.slice line 1 (-1) ∉ remaining_bodies st) /\ e = KeyError (Py.slice line 1 (-1)) /\ tr = [].
Proof.
  unfold enter_section, set_remove.
  set (name := Py.slice line 1 (-1)).
  destruct (decide (name ∈ remaining_bodies st)) as [Hin|Hout].
  - rewrite bind_lift_inr.
    destruct (get_elements name) as [trg [e'|el]]; simpl; discriminate.
  - simpl. intros H. inversion H; subst. auto.
Qed.

Lemma scan_line_tail (st : scan_state) (k : nat) (raw : string) :
  match current_elements st with
  | None => ret st
  | Some elements =>
      match new_line elements (Py.strip raw) with
      | Some nl =>
          ret (mkScan (current_body st) (current_elements st) (remaining_bodies st)
                      (<[k := nl]> (modified_lines st)))
      | None => ret st
      end
  end = ret (patch_line st k raw).
Proof.
  unfold patch_line. destruct (current_elements st) as [e|]; simpl; [|reflexivity].
  destruct (new_line e (Py.strip raw)); reflexivity.
Qed.

(** An iteration that completes: a header enters its section, then the
    field checks run. *)
Lemma scan_line_ok (st : scan_state) (k : nat) (raw : string) (tr : list event) (st' : scan_state) :
  scan_line st k raw = (tr, inr st') ->
  Forall quiet tr /\
  match header_name raw with
  | Some name => (name ∈ remaining_bodies st) /\ st' = patch_line (entered st name) k raw
  | None => st' = patch_line st k raw
  end.
Proof.
  unfold scan_line, header_name, is_header. cbv zeta.
  destruct (Py.startswith (Py.strip raw) "[" && Py.endswith (Py.strip raw) "]").
  - intros H. apply bind_ok in H as (tr1 & st1 & tr2 & Henter & Htail & ->).
    apply enter_section_ok in Henter as (Hin & -> & Hq).
    rewrite scan_line_tail in Htail. inversion Htail; subst.
    rewrite app_nil_r. auto.
  - rewrite bind_ret_l, scan_line_tail. intros H. inversion H; subst.
    split; [constructor | reflexivity].
Qed.

(** An iteration raises only on a header whose name is not, or no longer,
    among the remaining bodies; nothing has been printed or fetched for it. *)
Lemma scan_line_err (st : scan_state) (k : nat) (raw : string) (tr : list event) (e : exn) :
  scan_line st k raw = (tr, inl e) ->
  exists name, header_name raw = Some name /\ (name ∉ remaining_bodies st) /\
               e = KeyError name /\ tr = [].
Proof.
  unfold scan_line, header_name, is_header. cbv zeta.
  destruct (Py.startswith (Py.strip raw) "[" && Py.endswith (Py.strip raw) "]").
  - intros H. apply bind_err in H as [H | (tr1 & st1 & tr2 & _ & Htail & _)].
    + apply enter_section_err in H as (Hout & -> & ->). eauto.
    + rewrite scan_line_tail in Htail. discriminate.
  - rewrite bind_ret_l, scan_line_tail. discriminate.
Qed.

Lemma scan_line_unknown (st : scan_state) (k : nat) (raw name : string) :
  header_name raw = Some name -> name ∉ remaining_bodies st ->
  scan_line st k raw = ([], inl (KeyError name)).
Proof.
  unfold scan_line, header_name, is_header. cbv zeta.
  destruct (Py.startswith (Py.strip raw) "[" && Py.endswith (Py.strip raw) "]"); [|discriminate].
  intros [= <-] Hout. unfold enter_section, set_remove.
  destruct (decide (Py.slice (Py.strip raw) 1 (-1) ∈ remaining_bodies st)); [contradiction|].
  reflexivity.
Qed.

Lemma bind_ret_r {A} (m : M A) : bind m ret = m.
Proof. destruct m as [tr [e|x]]; [reflexivity|]. simpl. rewrite app_nil_r. reflexivity. Qed.

Lemma scan_app (st : scan_state) (k : nat) (l1 l2 : list string) :
  scan st k (l1 ++ l2) =
  bind (scan st k l1) (fun st1 => scan st1 (k + length l1) l2).
Proof.
  revert st k. induction l1 as [|raw l1 IH]; intros st k.
  - change (scan st k []) with (ret (A := scan_state) st).
    rewrite bind_ret_l, Nat.add_0_r. reflexivity.
  - change (scan st k ((raw :: l1) ++ l2))
      with (bind (scan_line st k raw) (fun st1 => scan st1 (S k) (l1 ++ l2))).
    change (scan st k (raw :: l1))
      with (bind (scan_line st k raw) (fun st1 => scan st1 (S k) l1)).
    rewrite bind_assoc. apply bind_ext. intros st1.
    rewrite IH. apply bind_ext. intros st2. f_equal. simpl. lia.
Qed.

Lemma scan_snoc (st : scan_state) (k : nat) (l : list string) (raw : string) :
  scan st k (l ++ [raw]) =
  bind (scan st k l) (fun st1 => scan_line st1 (k + length l) raw).
Proof.
  rewrite scan_app. apply bind_ext. intros st1.
  change (scan st1 (k + length l) [raw])
    with (bind (scan_line st1 (k + length l) raw) ret).
  apply bind_ret_r.
Qed.

Lemma last_header_snoc (acc : option string) (l : list string) (raw : string) :
  last_header acc (l ++ [raw]) =
  match header_name raw with
  | Some name => Some name
  | None => last_header acc l
  end.
Proof. revert acc. induction l as [|x l IH]; intros acc; simpl; [reflexivity | apply IH]. Qed.

Lemma patch_line_fields (st : scan_state) (k : nat) (raw : string) :
  current_body (patch_line st k raw) = current_body st /\
  current_elements (patch_line st k raw) = current_elements st /\
  remaining_bodies (patch_line st k raw) = remaining_bodies st.
Proof.
  unfold patch_line.
  destruct (current_elements st ≫= (fun e => new_line e (Py.strip raw))); auto.
Qed.

Lemma patch_line_modified (st : scan_state) (k : nat) (raw : string) (i : nat) :
  modified_lines (patch_line st k raw) !! i =
  if decide (i = k)
  then match current_elements st ≫= (fun e => new_line e (Py.strip raw)) with
       | Some nl => Some nl
       | None => modified_lines st !! k
       end
  else modified_lines st !! i.
Proof.
  unfold patch_line.
  destruct (current_elements st ≫= (fun e => new_line e (Py.strip raw))) as [nl|]; simpl.
  - destruct (decide (i = k)) as [->|Hne].
    + apply lookup_insert_eq.
    + apply lookup_insert_ne. congruence.
  - destruct (decide (i = k)) as [->|Hne]; reflexivity.
Qed.

#[local] Opaque BODY_MAP.

(** The loop invariant, for a scan that got through [lines]: only requests
    and prints happened; the state holds the last header and what was fetched
    for it; the remaining bodies are registry keys; and a line has a
    replacement exactly when the elements of its section give it one. *)
Lemma scan_invariant (lines : list string) (tr : list event) (st : scan_state) :
  scan initial_state 0 lines = (tr, inr st) ->
  Forall quiet tr /\
  current_body st = last_header None lines /\
  current_elements st = last_header None lines ≫= fetched /\
  remaining_bodies st ⊆ dom BODY_MAP /\
  forall i,
    modified_lines st !! i =
    match lines !! i with
    | Some raw => section_elements lines i ≫= (fun e => new_line e (Py.strip raw))
    | None => None
    end.
Proof.
  revert tr st. induction lines as [|raw l IH] using rev_ind; intros tr st.
  - change (scan initial_state 0 []) with (ret (A := scan_state) initial_state).
    intros H. inversion H; subst.
    split; [constructor|]. split; [reflexivity|]. split; [reflexivity|].
    split; [reflexivity|]. intros i. rewrite lookup_nil. apply lookup_empty.
  - rewrite scan_snoc. intros H.
    apply bind_ok in H as (tr1 & st1 & tr2 & Hl & Hline & ->).
    destruct (IH _ _ Hl) as (Hq1 & Hbody & Helems & Hrem & Hmod).
    apply scan_line_ok in Hline as [Hq2 Hst].
    rewrite last_header_snoc.
    assert (Hsec : forall i, (i < length l)%nat ->
                     section_elements (l ++ [raw]) i = section_elements l i).
    { intros i Hi. unfold section_elements, section_at.
      rewrite take_app_le by lia. reflexivity. }
    assert (Hlast : section_elements (l ++ [raw]) (length l) =
                    match header_name raw with
                    | Some name => fetched name
                    | None => last_header None l ≫= fetched
                    end).
    { unfold section_elements, section_at. rewrite take_ge by (rewrite length_app; simpl; lia).
      rewrite last_header_snoc. destruct (header_name raw); reflexivity. }
    assert (Hfields : current_body st =
                        match header_name raw with
                        | Some name => Some name
                        | None => last_header None l
                        end /\
                      current_elements st =
                        match header_name raw with
                        | Some name => fetched name
                        | None => last_header None l ≫= fetched
                        end /\
                      remaining_bodies st ⊆ dom BODY_MAP /\
                      forall i, modified_lines st !! i =
                        if decide (i = length l)
                        then current_elements st ≫= (fun e => new_line e (Py.strip raw))
                        else modified_lines st1 !! i).
    { assert (Hnone : modified_lines st1 !! length l = None).
      { rewrite Hmod. rewrite lookup_ge_None_2 by lia. reflexivity. }
      destruct (header_name raw) as [name|].
      - destruct Hst as [Hin Hst]. subst st.
        destruct (patch_line_fields (entered st1 name) (0 + length l) raw) as (Eb & Ee & Er).
        rewrite Eb, Ee, Er. simpl.
        split; [reflexivity|]. split; [reflexivity|].
        split; [apply subseteq_difference_l; exact Hrem|].
        intros i. rewrite patch_line_modified. simpl.
        destruct (decide (i = length l)) as [->|Hne]; [|reflexivity].
        case_match; [reflexivity | exact Hnone].
      - subst st.
        destruct (patch_line_fields st1 (0 + length l) raw) as (Eb & Ee & Er).
        rewrite Eb, Ee, Er, Hbody, Helems.
        split; [reflexivity|]. split; [reflexivity|]. split; [exact Hrem|].
        intros i. rewrite patch_line_modified, Helems. simpl.
        destruct (decide (i = length l)) as [->|Hne]; [|reflexivity].
        case_match; [reflexivity | exact Hnone]. }
    destruct Hfields as (Hb & He & Hr & Hm).
    split; [apply Forall_app; auto|].
    split; [exact Hb|].
    split; [rewrite He; destruct (header_name raw); reflexivity|].
    split; [exact Hr|].
    intros i. rewrite Hm.
    destruct (decide (i = length l)) as [->|Hne].
    + rewrite list_lookup_middle by reflexivity. rewrite Hlast, He. reflexivity.
    + rewrite Hmod. destruct (decide (i < length l)%nat) as [Hlt|Hge].
      * rewrite lookup_app_l by exact Hlt. rewrite Hsec by exact Hlt. reflexivity.
      * rewrite !lookup_ge_None_2; [reflexivity | rewrite length_app; simpl; lia | lia].
Qed.

(** The loop stops early only with the [KeyError] of a section header. *)
Lemma scan_err (st : scan_state) (k : nat) (lines : list string) (tr : list event) (e : exn) :
  scan st k lines = (tr, inl e) ->
  Forall quiet tr /\
  exists name raw, e = KeyError name /\ raw ∈ lines /\ header_name raw = Some name.
Proof.
  revert st k tr. induction lines as [|raw rest IH]; intros st k tr.
  - discriminate.
  - change (scan st k (raw :: rest))
      with (bind (scan_line st k raw) (fun st1 => scan st1 (S k) rest)).
    intros H. apply bind_err in H as [H | (tr1 & st1 & tr2 & Hline & Hrest & ->)].
    + apply scan_line_err in H as (name & Hname & _ & -> & ->).
      split; [constructor|]. exists name, raw. split; [reflexivity|].
      split; [apply list_elem_of_here | exact Hname].
    + apply scan_line_ok in Hline as [Hq _].
      apply IH in Hrest as (Hq' & name & raw' & -> & Hin & Hname).
      split; [apply Forall_app; auto|]. exists name, raw'.
      split; [reflexivity|]. split; [apply list_elem_of_further; exact Hin | exact Hname].
Qed.

(** A header that names no registry key stops the loop: at that line, or
    at an earlier header that raised as well. *)
Lemma scan_unknown_header (lines : list string) (i : nat) (raw name : string) :
  lines !! i = Some raw -> header_name raw = Some name -> BODY_MAP !! name = None ->
  exists tr culprit, scan initial_state 0 lines = (tr, inl (KeyError culprit)) /\ Forall quiet tr.
Proof.
  intros Hi Hname Hmiss.
  destruct (scan initial_state 0 lines) as [tr [e|st]] eqn:Hscan.
  - apply scan_err in Hscan as (Hq & culprit & raw' & -> & _). eauto.
  - exfalso. rewrite <- (take_drop_middle lines i raw Hi) in Hscan.
    rewrite scan_app in Hscan.
    apply bind_ok in Hscan as (tr1 & st1 & tr2 & Hpre & Hrest & _).
    change (scan st1 (0 + length (take i lines)) (raw :: drop (S i) lines))
      with (bind (scan_line st1 (0 + length (take i lines)) raw)
                 (fun st2 => scan st2 (S (0 + length (take i lines))) (drop (S i) lines)))
      in Hrest.
    apply bind_ok in Hrest as (tr3 & st2 & tr4 & Hline & _ & _).
    apply scan_line_ok in Hline as [_ Hst]. rewrite Hname in Hst. destruct Hst as [Hin _].
    apply scan_invariant in Hpre as (_ & _ & _ & Hrem & _).
    apply Hrem, elem_of_dom in Hin. rewrite Hmiss in Hin. destruct Hin as [? ?]. discriminate.
Qed.

(** ** The file system *)

Lemma fs_run_app (s : fs) (t1 t2 : list event) :
  fs_run s (t1 ++ t2) = fs_run (fs_run s t1) t2.
Proof. apply fold_left_app. Qed.

Lemma fs_run_quiet (s : fs) (tr : list event) : Forall quiet tr -> fs_run s tr = s.
Proof.
  induction 1 as [|ev tr Hev _ IH]; [reflexivity|].
  simpl. destruct ev; try contradiction; exact IH.
Qed.

Lemma written_app (t1 t2 : list event) : written (t1 ++ t2) = written t1 ++ written t2.
Proof. apply flat_map_app. Qed.

Lemma written_cons (ev : event) (tr : list event) :
  written (ev :: tr) =
  match ev with
  | TmpWrite chunk => chunk :: written tr
  | _ => written tr
  end.
Proof. destruct ev; reflexivity. Qed.

Lemma fs_run_cons (s : fs) (ev : event) (tr : list event) :
  fs_run s (ev :: tr) = fs_run (fs_step s ev) tr.
Proof. reflexivity. Qed.

Lemma written_quiet (tr : list event) : Forall quiet tr -> written tr = [].
Proof.
  induction 1 as [|ev tr Hev _ IH]; [reflexivity|].
  destruct ev; try contradiction; exact IH.
Qed.

Lemma written_writes (chunks : list string) : written (map TmpWrite chunks) = chunks.
Proof. induction chunks as [|c l IH]; [reflexivity|]. simpl. f_equal. exact IH. Qed.

Lemma fs_run_writes (t : option string) (c : string) (chunks : list string) :
  fs_run (mkFs t (Some c)) (map TmpWrite chunks) = mkFs t (Some (c +:+ joined chunks)).
Proof.
  revert c. induction chunks as [|x l IH]; intros c.
  - simpl. rewrite append_empty_r. reflexivity.
  - simpl. rewrite IH, append_assoc. reflexivity.
Qed.

(** Before the move, nothing touches the config file. *)
Lemma fs_run_no_move (s : fs) (tr : list event) :
  Forall (fun ev => ev <> Move) tr -> toml_file (fs_run s tr) = toml_file s.
Proof.
  intros H. revert s. induction H as [|ev tr Hev _ IH]; intros s; [reflexivity|].
  simpl. rewrite IH. destruct ev; try reflexivity. congruence.
Qed.

(** The last state an effect goes through is the state once it is over. *)
Lemma fs_during_last (same_filesystem : bool) (s : fs) (ev : event) :
  last (fs_during same_filesystem s ev) = Some (fs_step s ev).
Proof.
  unfold fs_during, fs_step.
  destruct ev; try reflexivity.
  destruct (tmp_file s) as [c|]; [|reflexivity].
  destruct same_filesystem; [reflexivity|]. apply last_snoc.
Qed.

(** With the temporary directory on the filesystem of the config file, an
    effect is one step. *)
Lemma fs_during_rename (s : fs) (ev : event) : fs_during true s ev = [fs_step s ev].
Proof.
  unfold fs_during, fs_step. destruct ev; try reflexivity.
  destruct (tmp_file s); reflexivity.
Qed.

Lemma fs_states_app (same_filesystem : bool) (s : fs) (t1 t2 : list event) :
  fs_states same_filesystem s (t1 ++ t2) =
  fs_states same_filesystem s t1 ++ fs_states same_filesystem (fs_run s t1) t2.
Proof.
  revert s. induction t1 as [|ev t1 IH]; intros s; [reflexivity|].
  simpl. rewrite IH, <- fs_run_cons, app_assoc. reflexivity.
Qed.

(** With a renaming move, the states gone through are the states after the
    prefixes of the trace. *)
Lemma fs_states_rename (s s' : fs) (tr : list event) :
  s' ∈ fs_states true s tr -> exists p q, tr = p ++ q /\ s' = fs_run s p.
Proof.
  revert s. induction tr as [|ev tr IH]; intros s Hin; [inversion Hin|].
  simpl in Hin. rewrite fs_during_rename in Hin.
  apply elem_of_cons in Hin as [-> | Hin].
  - exists [ev], tr. split; reflexivity.
  - destruct (IH _ Hin) as (p & q & -> & ->). exists (ev :: p), q. split; reflexivity.
Qed.

(** A copy starts from the emptied destination and goes through every
    prefix of the content. *)
Lemma copy_states_prefix (c : string) (n : nat) :
  (n <= String.length c)%nat -> substring 0 n c ∈ copy_states c.
Proof.
  intros Hn. unfold copy_states. apply list_elem_of_In, in_map_iff.
  exists n. split; [reflexivity|]. apply in_seq. lia.
Qed.

(** ** The run as a whole *)

Lemma print_bodies_eq (bodies : list string) :
  print_bodies bodies = (map (fun body => Print ("  - " +:+ body) None) bodies, inr tt).
Proof.
  induction bodies as [|b l IH]; [reflexivity|].
  simpl. rewrite IH. reflexivity.
Qed.

(** The report prints and never raises. *)
Lemma report_ok (remaining : gset string) :
  exists tr, report remaining = (tr, inr tt) /\ Forall quiet tr.
Proof.
  unfold report. destruct (decide (remaining = ∅)).
  - exists []. split; [reflexivity | constructor].
  - rewrite print_bodies_eq. simpl. eexists. split; [reflexivity|].
    constructor; [exact I|]. apply Forall_map. apply Forall_true. intros; exact I.
Qed.

Lemma write_back_eq (m : gmap nat string) (i : nat) (lines : list string) :
  write_back m i lines = (map TmpWrite (patched m i lines), inr tt).
Proof.
  revert i. induction lines as [|line rest IH]; intros i; [reflexivity|].
  simpl. rewrite IH. destruct (m !! i); reflexivity.
Qed.

Lemma patched_lookup (m : gmap nat string) (k : nat) (lines : list string) (i : nat) :
  patched m k lines !! i =
  (fun line => match m !! (k + i)%nat with
               | Some nl => nl +:+ NL
               | None => line
               end) <$> lines !! i.
Proof.
  revert k i. induction lines as [|line rest IH]; intros k i; [reflexivity|].
  destruct i as [|i]; simpl.
  - rewrite Nat.add_0_r. reflexivity.
  - rewrite IH, Nat.add_succ_comm. reflexivity.
Qed.

Lemma main_unopenable : main None = ([], inl OSError).
Proof. reflexivity. Qed.

(** A run whose scan raised ends there: nothing is reported or written. *)
Lemma main_aborted (content : string) (tr : list event) (e : exn) :
  scan initial_state 0 (Py.file_lines content) = (tr, inl e) ->
  main (Some content) = (tr, inl e).
Proof.
  intros H. unfold main, open_toml. rewrite bind_ret_l, H. reflexivity.
Qed.

(** A run whose scan got through: the report, then every line written to the
    temporary file, then the move. *)
Lemma main_completed (content : string) (tr : list event) (st : scan_state) :
  scan initial_state 0 (Py.file_lines content) = (tr, inr st) ->
  main (Some content) =
  (tr ++ trace (report (remaining_bodies st)) ++
   TmpCreate :: map TmpWrite (patched (modified_lines st) 0 (Py.file_lines content)) ++
   [TmpClose; Move], inr tt).
Proof.
  intros H. unfold main, open_toml. rewrite bind_ret_l, H.
  destruct (report_ok (remaining_bodies st)) as (trr & Hr & _).
  simpl. rewrite write_back_eq, Hr. reflexivity.
Qed.

(** Every run of [main] is of one of three kinds. *)
Lemma main_cases (toml : option string) :
  (toml = None /\ main toml = ([], inl OSError)) \/
  (exists content tr name,
     toml = Some content /\ main toml = (tr, inl (KeyError name)) /\ Forall quiet tr) \/
  (exists content tr st,
     toml = Some content /\
     scan initial_state 0 (Py.file_lines content) = (tr, inr st) /\
     main toml =
     ((tr ++ trace (report (remaining_bodies st))) ++
      (TmpCreate :: map TmpWrite (patched (modified_lines st) 0 (Py.file_lines content)) ++
       [TmpClose]) ++ [Move], inr tt)).
Proof.
  destruct toml as [content|]; [|left; split; reflexivity]. right.
  destruct (scan initial_state 0 (Py.file_lines content)) as [tr [e|st]] eqn:Hscan.
  - left. pose proof (main_aborted _ _ _ Hscan) as Hm.
    apply scan_err in Hscan as (Hq & name & raw & -> & _).
    exists content, tr, name. auto.
  - right. exists content, tr, st. split; [reflexivity|]. split; [exact Hscan|].
    rewrite (main_completed _ _ _ Hscan). f_equal.
    rewrite <- !app_assoc. simpl. rewrite <- !app_assoc. reflexivity.
Qed.

(** ** The parser, the registry and the client: specification claims *)

(** C3: when the response holds both markers with a well-formed record
    between them, the parser takes the text strictly between the markers (the
    record, without the whitespace around it), drops its first line (the
    timestamp), joins the remaining lines with single spaces and splits on
    whitespace; the tokens being numbers and at least eight, it returns the
    elements whose eccentricity, periapsis radius, inclination, longitude of
    ascending node, argument of periapsis and mean anomaly are tokens 0, 1,
    2, 3, 4 and 7.  Tokens 5 and 6 are not used. *)
Theorem parse_ephemeris_fields (response first : string) (rest : list string) (arr : list float) :
  Py.contains response "$$SOE" -> Py.contains response "$$EOE" ->
  Py.splitlines (Py.strip (between_markers response)) = first :: rest ->
  floats_of (Py.split (Py.join " " rest)) = inr arr ->
  (8 <= length arr)%nat ->
  exists t0 t1 t2 t3 t4 t5 t6 t7 more,
    arr = t0 :: t1 :: t2 :: t3 :: t4 :: t5 :: t6 :: t7 :: more /\
    parse_ephemeris response = inr (Some (mkElements t0 t1 t2 t3 t4 t7)).
Proof.
  intros Hs He Hlines Harr Hlen.
  rewrite (parse_ephemeris_record _ _ _ Hs He Hlines), Harr.
  do 8 (destruct arr as [|? arr]; [simpl in Hlen; lia|]).
  eexists _, _, _, _, _, _, _, _, _. split; reflexivity.
Qed.

(** C6: a response that lacks [$$SOE] or [$$EOE] makes the parser return the
    empty result, without raising; and when the GET of a body with a lookup
    returns a response whose status is no error and that the parser finds
    empty, the client raises an exception whose message ends with the full
    text of the response. *)
Theorem unparsable_response_raises :
  (forall response,
     ~ Py.contains response "$$SOE" \/ ~ Py.contains response "$$EOE" ->
     parse_ephemeris response = inr None) /\
  (forall name params r,
     get_api_params name = inr (Some params) ->
     http_get (get_api_url params) = GetReturns r ->
     raise_for_status r = inr tt ->
     parse_ephemeris (text r) = inr None ->
     get_elements name =
     ([HttpGet (get_api_url params)],
      inl (Exception ("Could not parse ephemeris. Could this be an API error?" +:+ NL +:+
                      "Server response:" +:+ NL +:+ text r)))).
Proof.
  split.
  - intros response H. unfold parse_ephemeris. cbv zeta.
    destruct H as [H|H]; apply find_absent in H; rewrite H.
    + reflexivity.
    + rewrite orb_true_r. reflexivity.
  - intros name params r Hparams Hget Hstatus Hparse.
    unfold get_elements, session_get. rewrite Hparams. simpl.
    rewrite Hget. simpl. rewrite Hstatus. simpl. rewrite Hparse. reflexivity.
Qed.

(** C7: for a registry key mapped to [None], the lookup gives the empty
    result and the client returns the empty result with an empty trace: no
    URL, no request; for a key mapped to a pair, the lookup returns the base
    parameters with that same target as [COMMAND] and that same center as
    [CENTER], a function of the name alone; for a name that is no key, the
    lookup raises, and so does the client, without a request. *)
Theorem registry_lookup_cases (name : string) :
  (BODY_MAP !! name = Some None ->
   get_api_params name = inr None /\ get_elements name = ([], inr None)) /\
  (forall this parent,
     BODY_MAP !! name = Some (Some (this, parent)) ->
     get_api_params name =
     inr (Some (API_BASE_PARAMS ++
                [("COMMAND", "'" +:+ this +:+ "'"); ("CENTER", "@" +:+ parent)]))) /\
  (BODY_MAP !! name = None ->
   get_api_params name =
     inl (Exception ("Body '" +:+ name +:+ "' is not in BODY_MAP (unrecognized body)")) /\
   get_elements name =
     ([], inl (Exception ("Body '" +:+ name +:+ "' is not in BODY_MAP (unrecognized body)")))).
Proof.
  split; [|split].
  - intros H. split; [|apply get_elements_no_lookup; exact H].
    unfold get_api_params. rewrite H. reflexivity.
  - intros this parent H. apply get_api_params_pair. exact H.
  - intros H. split; [|apply get_elements_unknown; exact H].
    unfold get_api_params. rewrite H. reflexivity.
Qed.

(** C10: the parser is not total on the responses that hold both markers:
    on a response whose record holds only the timestamp line it raises
    [IndexError], it returns neither the empty result nor elements. *)
Theorem parse_ephemeris_not_total :
  exists response,
    Py.contains response "$$SOE" /\ Py.contains response "$$EOE" /\
    parse_ephemeris response = inl IndexError.
Proof.
  exists Sample.timestamp_only.
  assert (Hs : Py.contains Sample.timestamp_only "$$SOE")
    by (apply find_present; vm_compute; discriminate).
  assert (He : Py.contains Sample.timestamp_only "$$EOE")
    by (apply find_present; vm_compute; discriminate).
  split; [exact Hs|]. split; [exact He|].
  apply (parse_ephemeris_short _ "2460946.166666700 = A.D. 2025-Sep-27 16:00:00.0029 TDB" [] []).
  - exact Hs.
  - exact He.
  - vm_compute. reflexivity.
  - reflexivity.
  - simpl. lia.
Qed.

(** ** The replacement lines *)

Lemma names_field_prefix (line : string) (f : field) :
  names_field line f = true ->
  (exists post, line = key_of f +:+ post) \/
  (f = Eccentricity /\ exists post, line = "apoapsis" +:+ post).
Proof.
  unfold names_field, Py.startswith. intros H. apply orb_prop in H as [H|H].
  - left. apply prefix_app. exact H.
  - right. destruct f; try discriminate. split; [reflexivity|]. apply prefix_app. exact H.
Qed.

Lemma recognized_field (line : string) (f : field) :
  names_field line f = true -> recognized line = true.
Proof.
  intros H. unfold recognized, fields. apply existsb_exists. exists f.
  split; [|exact H]. destruct f; simpl; auto 10.
Qed.

(** A stripped line gets a replacement exactly when it names a field, and
    the replacement is the key of that field, [ = ] and its value. *)
Lemma new_line_spec (e : Elements) (line nl : string) :
  new_line e line = Some nl <->
  exists f, names_field line f = true /\
            nl = key_of f +:+ " = " +:+ float_repr (value_of f e).
Proof.
  split.
  - unfold new_line. cbv zeta.
    destruct (Py.startswith line "mean_anomaly") eqn:H6.
    { intros [= <-]. exists MeanAnomaly. unfold names_field. simpl key_of.
      rewrite H6. split; reflexivity. }
    destruct (Py.startswith line "long_asc_node") eqn:H5.
    { intros [= <-]. exists LongAscNode. unfold names_field. simpl key_of.
      rewrite H5. split; reflexivity. }
    destruct (Py.startswith line "arg_pe") eqn:H4.
    { intros [= <-]. exists ArgPe. unfold names_field. simpl key_of.
      rewrite H4. split; reflexivity. }
    destruct (Py.startswith line "inclination") eqn:H3.
    { intros [= <-]. exists Inclination. unfold names_field. simpl key_of.
      rewrite H3. split; reflexivity. }
    destruct (Py.startswith line "periapsis") eqn:H2.
    { intros [= <-]. exists Periapsis. unfold names_field. simpl key_of.
      rewrite H2. split; reflexivity. }
    destruct (Py.startswith line "apoapsis" || Py.startswith line "eccentricity") eqn:H1;
      [|discriminate].
    intros [= <-]. exists Eccentricity. unfold names_field. simpl key_of.
    rewrite orb_comm. rewrite H1. split; reflexivity.
  - intros (f & Hf & ->).
    apply names_field_prefix in Hf as [[post ->] | [-> [post ->]]].
    + destruct f; destruct post; vm_compute; reflexivity.
    + destruct post; vm_compute; reflexivity.
Qed.

(** C2, as amended: a stripped line that starts with one of the six keys is
    replaced by that same key, [ = ] and the value of the field; a line that
    starts with [apoapsis] is replaced by [eccentricity = ] and the fetched
    eccentricity, so its key is not kept; no other line is replaced. *)
Theorem replacement_key (e : Elements) (line : string) :
  (forall f,
     Py.startswith line (key_of f) = true ->
     new_line e line = Some (key_of f +:+ " = " +:+ float_repr (value_of f e))) /\
  (Py.startswith line "apoapsis" = true ->
   new_line e line = Some ("eccentricity = " +:+ float_repr (ec e))) /\
  (forall nl, new_line e line = Some nl -> recognized line = true).
Proof.
  split; [|split].
  - intros f Hf. apply new_line_spec. exists f. split; [|reflexivity].
    unfold names_field. rewrite Hf. reflexivity.
  - intros Hapo. apply new_line_spec. exists Eccentricity. split; [|reflexivity].
    unfold names_field. rewrite Hapo. apply orb_true_r.
  - intros nl Hnl. apply new_line_spec in Hnl as (f & Hf & _).
    apply recognized_field with f. exact Hf.
Qed.

(** ** The run: what is written, and when *)

(** What a completed run did: the scan got through, every chunk went to the
    temporary file, and the move, the last effect, put their concatenation
    in place of the config file. *)
Lemma completed_run (toml : option string) :
  outcome (main toml) = inr tt ->
  exists content tr st body,
    toml = Some content /\
    scan initial_state 0 (Py.file_lines content) = (tr, inr st) /\
    trace (main toml) = body ++ [Move] /\
    Forall (fun ev => ev <> Move) body /\
    written (trace (main toml)) = patched (modified_lines st) 0 (Py.file_lines content) /\
    fs_run (mkFs toml None) (trace (main toml)) =
      mkFs (Some (joined (patched (modified_lines st) 0 (Py.file_lines content)))) None.
Proof.
  intros Hok.
  destruct (main_cases toml)
    as [[_ Hm] | [(content & tr & name & _ & Hm & _) | (content & tr & st & -> & Hscan & Hm)]];
    try (rewrite Hm in Hok; discriminate).
  pose proof (scan_invariant _ _ _ Hscan) as (Hq & _).
  destruct (report_ok (remaining_bodies st)) as (trr & Hr & Hqr).
  rewrite Hr in Hm. simpl trace in Hm.
  set (chunks := patched (modified_lines st) 0 (Py.file_lines content)) in *.
  exists content, tr, st, ((tr ++ trr) ++ TmpCreate :: map TmpWrite chunks ++ [TmpClose]).
  assert (Hquiet : Forall quiet (tr ++ trr)) by (apply Forall_app; auto).
  rewrite app_assoc in Hm. rewrite Hm. simpl trace.
  split; [reflexivity|]. split; [exact Hscan|]. split; [reflexivity|].
  split; [|split].
  - apply Forall_app. split.
    + eapply Forall_impl; [exact Hquiet|]. intros ev Hev ->. exact Hev.
    + constructor; [discriminate|]. apply Forall_app. split.
      * apply Forall_map. apply Forall_true. intros; discriminate.
      * constructor; [discriminate | constructor].
  - rewrite written_app, written_app, (written_quiet _ Hquiet), written_cons.
    rewrite written_app, written_writes. simpl. rewrite !app_nil_r. reflexivity.
  - rewrite fs_run_app, fs_run_app, (fs_run_quiet _ _ Hquiet), fs_run_cons.
    simpl fs_step. rewrite fs_run_app, fs_run_writes. reflexivity.
Qed.

(** What an aborted run did: it printed and fetched, and left the files
    alone. *)
Lemma aborted_run (toml : option string) (e : exn) :
  outcome (main toml) = inl e ->
  Forall quiet (trace (main toml)) /\
  ((toml = None /\ e = OSError) \/ (exists name, e = KeyError name)).
Proof.
  intros Herr.
  destruct (main_cases toml)
    as [[-> Hm] | [(content & tr & name & -> & Hm & Hq) | (content & tr & st & _ & _ & Hm)]];
    rewrite Hm in *; simpl in *.
  - inversion Herr. split; [constructor | left; auto].
  - inversion Herr. split; [exact Hq | right; eauto].
  - discriminate.
Qed.

(** The chunk a completed run writes for line [i]: the replacement the
    elements of its section give the stripped line, or the line itself. *)
Lemma written_line (content : string) (i : nat) (line : string) :
  outcome (main (Some content)) = inr tt ->
  Py.file_lines content !! i = Some line ->
  written (trace (main (Some content))) !! i =
  Some match section_elements (Py.file_lines content) i
             ≫= (fun e => new_line e (Py.strip line)) with
       | Some nl => nl +:+ NL
       | None => line
       end.
Proof.
  intros Hok Hline.
  destruct (completed_run _ Hok) as (content' & tr & st & body & [= <-] & Hscan & _ & _ & Hw & _).
  rewrite Hw, patched_lookup, Hline. simpl.
  apply scan_invariant in Hscan as (_ & _ & _ & _ & Hmod).
  rewrite Hmod, Hline. reflexivity.
Qed.

(** Elements in force at a line were returned by the parser for the
    response to the request of the line's section. *)
Lemma fetched_parsed (name : string) (e : Elements) :
  fetched name = Some e ->
  exists params r,
    get_api_params name = inr (Some params) /\
    http_get (get_api_url params) = GetReturns r /\
    parse_ephemeris (text r) = inr (Some e).
Proof.
  unfold fetched, get_elements, session_get.
  destruct (get_api_params name) as [x|[params|]]; simpl; try discriminate.
  destruct (http_get (get_api_url params)) as [detail|r] eqn:Hg; simpl; try discriminate.
  destruct (raise_for_status r) as [x|[]]; simpl; try discriminate.
  destruct (parse_ephemeris (text r)) as [x|[e'|]] eqn:Hp; simpl; try discriminate.
  intros [= <-]. exists params, r. auto.
Qed.

(** A fetch that raised leaves the section without elements. *)
Lemma failed_fetch_no_elements (lines : list string) (i : nat) (name : string) (e : exn) :
  section_at lines i = Some name -> outcome (get_elements name) = inl e ->
  section_elements lines i = None.
Proof.
  intros Hs He. unfold section_elements, fetched. rewrite Hs. simpl. rewrite He. reflexivity.
Qed.



(** Stop the run after any number of its effects: the config file is still
    the original one, unless the run is over and completed, in which case it
    is the whole output, the chunks written to the temporary file end to end.
    The writes all go to the temporary file, and the move is the last effect
    and the only one that changes the config file. *)
Lemma config_after_prefix (toml : option string) (p q : list event) :
  trace (main toml) = p ++ q ->
  toml_file (fs_run (mkFs toml None) p) = toml \/
  (q = [] /\ outcome (main toml) = inr tt /\
   fs_run (mkFs toml None) p = mkFs (Some (joined (written (trace (main toml))))) None).
Proof.
  intros Hsplit.
  destruct (outcome (main toml)) as [e|[]] eqn:Hout.
  - left. destruct (aborted_run _ _ Hout) as [Hq _].
    rewrite Hsplit in Hq. apply Forall_app in Hq as [Hp _].
    rewrite (fs_run_quiet _ _ Hp). reflexivity.
  - destruct (completed_run _ Hout) as (c & tr & st & body & _ & _ & Htr & Hbody & Hw & Hfs).
    destruct q as [|x q' _] using rev_ind.
    + right. rewrite app_nil_r in Hsplit. rewrite <- Hsplit, Hfs, Hw. auto.
    + left. rewrite Htr, app_assoc in Hsplit.
      apply app_inj_tail in Hsplit as [Hb _]. rewrite Hb in Hbody.
      apply Forall_app in Hbody as [Hp _].
      rewrite (fs_run_no_move _ _ Hp). reflexivity.
Qed.

(** When the temporary directory is on the filesystem of the config file,
    the config file is replaced in one step: in every state the file system
    goes through during a run, it is the original one, or the run has
    completed and it is the whole output. *)
Lemma config_intact_or_replaced_on_rename (toml : option string) (s : fs) :
  s ∈ fs_states true (mkFs toml None) (trace (main toml)) ->
  toml_file s = toml \/
  (outcome (main toml) = inr tt /\
   s = mkFs (Some (joined (written (trace (main toml))))) None).
Proof.
  intros Hin. apply fs_states_rename in Hin as (p & q & Hsplit & ->).
  destruct (config_after_prefix _ _ _ Hsplit) as [H | (_ & Hok & H)]; auto.
Qed.

(** When the move starts, the temporary file holds the whole output and the
    config file is still the original one. *)
Lemma run_before_move (toml : option string) :
  outcome (main toml) = inr tt ->
  exists body,
    trace (main toml) = body ++ [Move] /\
    Forall (fun s => toml_file s = toml) (fs_states false (mkFs toml None) body) /\
    fs_run (mkFs toml None) body =
      mkFs toml (Some (joined (written (trace (main toml))))).
Proof.
  intros Hok.
  destruct (main_cases toml)
    as [[_ Hm] | [(content & tr & name & _ & Hm & _) | (content & tr & st & -> & Hscan & Hm)]];
    try (rewrite Hm in Hok; discriminate).
  pose proof (scan_invariant _ _ _ Hscan) as (Hq & _).
  destruct (report_ok (remaining_bodies st)) as (trr & Hr & Hqr).
  rewrite Hr in Hm. simpl trace in Hm.
  set (chunks := patched (modified_lines st) 0 (Py.file_lines content)) in *.
  exists ((tr ++ trr) ++ TmpCreate :: map TmpWrite chunks ++ [TmpClose]).
  assert (Hquiet : Forall quiet (tr ++ trr)) by (apply Forall_app; auto).
  rewrite app_assoc in Hm. rewrite Hm. simpl trace.
  assert (Hw : written (((tr ++ trr) ++ TmpCreate :: map TmpWrite chunks ++ [TmpClose]) ++ [Move])
               = chunks).
  { rewrite written_app, written_app, (written_quiet _ Hquiet), written_cons.
    rewrite written_app, written_writes. simpl. rewrite !app_nil_r. reflexivity. }
  rewrite Hw.
  assert (Hfs : fs_run (mkFs (Some content) None)
                  ((tr ++ trr) ++ TmpCreate :: map TmpWrite chunks ++ [TmpClose])
                = mkFs (Some content) (Some (joined chunks))).
  { rewrite fs_run_app, (fs_run_quiet _ _ Hquiet), fs_run_cons.
    simpl fs_step. rewrite fs_run_app, fs_run_writes. reflexivity. }
  split; [rewrite <- app_assoc; reflexivity|]. split; [|exact Hfs].
  apply Forall_forall. intros s Hs.
  assert (Hnomove : Forall (fun ev => ev <> Move)
                      ((tr ++ trr) ++ TmpCreate :: map TmpWrite chunks ++ [TmpClose])).
  { apply Forall_app. split.
    - eapply Forall_impl; [exact Hquiet|]. intros ev Hev ->. exact Hev.
    - constructor; [discriminate|]. apply Forall_app. split.
      + apply Forall_map. apply Forall_true. intros; discriminate.
      + constructor; [discriminate | constructor]. }
  revert Hs Hnomove. generalize ((tr ++ trr) ++ TmpCreate :: map TmpWrite chunks ++ [TmpClose]).
  intros l. change (Some content) with (toml_file (mkFs (Some content) None)) at 2.
  generalize (mkFs (Some content) None). intros s0 Hs Hl. revert s0 Hs.
  induction Hl as [|ev l Hev _ IH]; intros s0 Hs; [inversion Hs|].
  simpl in Hs. apply elem_of_app in Hs as [Hs | Hs].
  - assert (Hd : fs_during false s0 ev = [fs_step s0 ev]) by (destruct ev; try reflexivity; congruence).
    rewrite Hd in Hs. apply list_elem_of_singleton in Hs as ->.
    destruct ev; try reflexivity. congruence.
  - rewrite (IH _ Hs). destruct ev; try reflexivity. congruence.
Qed.

(** C9: the config file is not replaced in one step when the temporary
    directory is on another filesystem than the config file.  The move of a
    completed run then copies the temporary file over the config file: with
    the whole output in the temporary file, the config file goes through
    every prefix of the output, the empty one first.  Up to the move it is
    the original one. *)
Theorem config_partial_during_copy (toml : option string) (n : nat) :
  outcome (main toml) = inr tt ->
  (n <= String.length (joined (written (trace (main toml)))))%nat ->
  mkFs (Some (substring 0 n (joined (written (trace (main toml))))))
       (Some (joined (written (trace (main toml)))))
  ∈ fs_states false (mkFs toml None) (trace (main toml)).
Proof.
  intros Hok Hn.
  destruct (run_before_move _ Hok) as (body & Htr & _ & Hfs).
  rewrite Htr at 3. rewrite fs_states_app, Hfs. apply elem_of_app. right.
  cbn [fs_states]. rewrite app_nil_r. unfold fs_during. cbn [tmp_file].
  apply elem_of_app. left.
  apply list_elem_of_In, in_map_iff. eexists. split; [reflexivity|].
  apply list_elem_of_In, copy_states_prefix, Hn.
Qed.

(** C1: a config file in which some header names no registry key is not
    patched: the run ends with the [KeyError] of [remaining_bodies.remove],
    at that header or at an earlier one, after prints and requests only, and
    the config file is left as it was. *)
Theorem unknown_section_aborts (content : string) (i : nat) (raw name : string) :
  Py.file_lines content !! i = Some raw ->
  header_name raw = Some name ->
  BODY_MAP !! name = None ->
  exists culprit,
    outcome (main (Some content)) = inl (KeyError culprit) /\
    Forall quiet (trace (main (Some content))) /\
    file_after (Some content) = Some content.
Proof.
  intros Hline Hname Hmiss.
  destruct (scan_unknown_header _ _ _ _ Hline Hname Hmiss) as (tr & culprit & Hscan & Hq).
  exists culprit. unfold file_after. rewrite (main_aborted _ _ _ Hscan). simpl.
  split; [reflexivity|]. split; [exact Hq|].
  rewrite (fs_run_quiet _ _ Hq). reflexivity.
Qed.

Lemma last_header_none (acc : option string) (lines : list string) :
  Forall (fun raw => header_name raw = None) lines -> last_header acc lines = acc.
Proof.
  intros H. revert acc. induction H as [|raw l Hraw _ IH]; intros acc; [reflexivity|].
  simpl. rewrite Hraw. apply IH.
Qed.

(** X18: a config file without any section header goes through the patcher
    with nothing but its line endings changed: the run completes, every line
    is written as it was read, that is with LF for its line ending, and a file
    that holds no CR is the same text afterwards. *)
Lemma headerless_file_unchanged (content : string) :
  Forall (fun raw => header_name raw = None) (Py.file_lines content) ->
  outcome (main (Some content)) = inr tt /\
  written (trace (main (Some content))) = map Py.translate_ending (Py.raw_lines content) /\
  file_after (Some content) = Some (joined (map Py.translate_ending (Py.raw_lines content))) /\
  (Py.cr_free content = true -> file_after (Some content) = Some content).
Proof.
  intros Hnone.
  destruct (scan initial_state 0 (Py.file_lines content)) as [tr [e|st]] eqn:Hscan.
  - apply scan_err in Hscan as (_ & name & raw & _ & Hin & Hname).
    rewrite Forall_forall in Hnone. rewrite (Hnone _ Hin) in Hname. discriminate.
  - assert (Hout : outcome (main (Some content)) = inr tt)
      by (rewrite (main_completed _ _ _ Hscan); reflexivity).
    assert (Hw : written (trace (main (Some content))) = Py.file_lines content).
    { apply list_eq. intros i.
      destruct (Py.file_lines content !! i) as [line|] eqn:Hline.
      - rewrite (written_line _ _ _ Hout Hline).
        unfold section_elements, section_at.
        rewrite last_header_none by (apply Forall_take; exact Hnone). reflexivity.
      - destruct (completed_run _ Hout) as (c & tr' & st' & body & [= <-] & _ & _ & _ & Hw & _).
        rewrite Hw, patched_lookup, Hline. reflexivity. }
    destruct (completed_run _ Hout) as (c & tr' & st' & body & _ & _ & _ & _ & Hw' & Hfs).
    assert (Hafter : file_after (Some content) = Some (joined (Py.file_lines content)))
      by (unfold file_after; rewrite Hfs, <- Hw', Hw; reflexivity).
    split; [exact Hout|]. rewrite <- file_lines_raw.
    split; [exact Hw|]. split; [exact Hafter|].
    intros Hcr. rewrite Hafter, (joined_file_lines _ Hcr). reflexivity.
Qed.

Lemma scan_line_plain (st : scan_state) (k : nat) (raw : string) :
  header_name raw = None -> scan_line st k raw = ret (patch_line st k raw).
Proof.
  unfold scan_line, header_name, is_header. cbv zeta.
  destruct (Py.startswith (Py.strip raw) "[" && Py.endswith (Py.strip raw) "]"); [discriminate|].
  intros _. rewrite bind_ret_l. apply scan_line_tail.
Qed.

(** As long as no header names a remaining body, the loop is silent up to its
    first header and raises there. *)
Lemma scan_unregistered (st : scan_state) (k : nat) (lines : list string) :
  (forall raw name, raw ∈ lines -> header_name raw = Some name ->
                    name ∉ remaining_bodies st) ->
  (exists raw name, raw ∈ lines /\ header_name raw = Some name) ->
  exists name, scan st k lines = ([], inl (KeyError name)).
Proof.
  revert st k. induction lines as [|raw rest IH]; intros st k Hout (raw' & name & Hin & Hname).
  - inversion Hin.
  - change (scan st k (raw :: rest))
      with (bind (scan_line st k raw) (fun st1 => scan st1 (S k) rest)).
    destruct (header_name raw) as [n|] eqn:Hraw.
    + exists n. rewrite (scan_line_unknown st k raw n Hraw); [reflexivity|].
      apply (Hout raw n); [apply list_elem_of_here | exact Hraw].
    + rewrite (scan_line_plain st k raw Hraw), bind_ret_l.
      apply IH.
      * intros r n Hr Hn. destruct (patch_line_fields st k raw) as (_ & _ & ->).
        apply (Hout r n); [apply list_elem_of_further; exact Hr | exact Hn].
      * apply elem_of_cons in Hin as [-> | Hin]; [congruence|].
        exists raw', name. auto.
Qed.

(** C4: on a config file that has section headers, none of which names a
    registry key, the run produces no output: it ends with the [KeyError]
    of the first header, before any request, report or write. *)
Theorem unregistered_sections_no_output (content : string) :
  (forall raw name, raw ∈ Py.file_lines content -> header_name raw = Some name ->
                    BODY_MAP !! name = None) ->
  (exists raw name, raw ∈ Py.file_lines content /\ header_name raw = Some name) ->
  exists name, main (Some content) = ([], inl (KeyError name)).
Proof.
  intros Hmiss Hsome.
  destruct (scan_unregistered initial_state 0 (Py.file_lines content)) as [name Hscan].
  - intros raw name Hin Hname Hrem.
    change (remaining_bodies initial_state) with (dom BODY_MAP) in Hrem.
    apply elem_of_dom in Hrem as [v Hv]. rewrite (Hmiss raw name Hin Hname) in Hv. discriminate.
  - exact Hsome.
  - exists name. apply main_aborted. exact Hscan.
Qed.

(** ** More on the parser *)

Lemma splitlines_nil (s : string) : Py.splitlines s = [] <-> s = EmptyString.
Proof.
  split; [|intros ->; reflexivity].
  destruct s as [|c r]; [reflexivity|]. simpl.
  destruct (Py.is_linebreak c).
  - destruct r as [|c' r']; [discriminate|].
    destruct (Py.is_cr c && Py.is_lf c'); discriminate.
  - destruct (Py.splitlines r); discriminate.
Qed.

Lemma find_from_range (s sub : string) (i : Z) :
  Py.find_from s sub i = -1 \/ i <= Py.find_from s sub i.
Proof.
  revert i. induction s as [|c s IH]; intros i.
  - change (Py.find_from EmptyString sub i)
      with (if String.prefix sub EmptyString then i else -1).
    destruct (String.prefix sub EmptyString); [right; lia | left; reflexivity].
  - change (Py.find_from (String c s) sub i)
      with (if String.prefix sub (String c s) then i else Py.find_from s sub (i + 1)).
    destruct (String.prefix sub (String c s)); [right; lia|].
    destruct (IH (i + 1)) as [H|H]; [left; exact H | right; lia].
Qed.

(** [find] returns -1 or an index from 0 on. *)
Lemma find_range (s sub : string) : Py.find s sub = -1 \/ 0 <= Py.find s sub.
Proof. apply find_from_range. Qed.

(** A slice whose upper bound is not above its lower bound is empty. *)
Lemma slice_empty (s : string) (i j : Z) :
  0 <= j <= i -> Py.slice s i j = EmptyString.
Proof.
  intros H. unfold Py.slice, Py.slice_bound. cbv zeta.
  destruct (Z.ltb_spec i 0) as [?|_]; [lia|].
  destruct (Z.ltb_spec j 0) as [?|_]; [lia|].
  destruct (Z.ltb_spec (Z.min i (Z.of_nat (String.length s)))
                       (Z.min j (Z.of_nat (String.length s)))) as [Hlt|_]; [lia | reflexivity].
Qed.

(** The parser sees a response only through the presence of the markers and
    the text between them. *)
Lemma parse_ephemeris_between (r1 r2 : string) :
  Py.contains r1 "$$SOE" -> Py.contains r1 "$$EOE" ->
  Py.contains r2 "$$SOE" -> Py.contains r2 "$$EOE" ->
  between_markers r1 = between_markers r2 ->
  parse_ephemeris r1 = parse_ephemeris r2.
Proof.
  intros Hs1 He1 Hs2 He2 Hb. unfold parse_ephemeris. cbv zeta.
  rewrite (markers_found _ Hs1 He1), (markers_found _ Hs2 He2).
  change (Z.of_nat (String.length "$$SOE")) with 5.
  fold (between_markers r1). fold (between_markers r2). rewrite Hb. reflexivity.
Qed.

(** Markers around nothing but whitespace: the empty result. *)
Lemma parse_ephemeris_blank (response : string) :
  Py.contains response "$$SOE" -> Py.contains response "$$EOE" ->
  Py.strip (between_markers response) = EmptyString ->
  parse_ephemeris response = inr None.
Proof.
  intros Hs He Hblank. unfold parse_ephemeris. cbv zeta. rewrite (markers_found _ Hs He).
  change (Z.of_nat (String.length "$$SOE")) with 5.
  fold (between_markers response). rewrite Hblank. reflexivity.
Qed.

(** X1: the parser returns the empty result exactly when a marker is missing
    or the text between the markers is empty or all whitespace; in every
    other case it returns elements or raises. *)
Theorem parse_ephemeris_empty_iff (response : string) :
  parse_ephemeris response = inr None <->
  ~ Py.contains response "$$SOE" \/ ~ Py.contains response "$$EOE" \/
  Py.strip (between_markers response) = EmptyString.
Proof.
  destruct (Z.eq_dec (Py.find response "$$SOE") (-1)) as [Hs|Hs].
  { split; [intros _; left; apply find_absent; exact Hs|].
    intros _. unfold parse_ephemeris. cbv zeta. rewrite Hs. reflexivity. }
  destruct (Z.eq_dec (Py.find response "$$EOE") (-1)) as [He|He].
  { split; [intros _; right; left; apply find_absent; exact He|].
    intros _. unfold parse_ephemeris. cbv zeta. rewrite He, orb_true_r. reflexivity. }
  apply find_present in Hs, He.
  destruct (Py.splitlines (Py.strip (between_markers response))) as [|first rest] eqn:Hlines.
  - apply splitlines_nil in Hlines. split; [auto|]. intros _.
    apply parse_ephemeris_blank; assumption.
  - split.
    + rewrite (parse_ephemeris_record _ _ _ Hs He Hlines).
      destruct (floats_of (Py.split (Py.join " " rest))) as [e|arr]; [discriminate|]. simpl.
      repeat match goal with
             | |- context [index arr ?n] => destruct (index arr n); simpl; [discriminate|]
             end.
      discriminate.
    + intros [H | [H | H]]; try contradiction.
      rewrite H in Hlines. discriminate.
Qed.

(** X2: when the first [$$EOE] does not come after the end of the first
    [$$SOE] (the markers are in the wrong order), the parser returns the
    empty result, whatever else the response holds. *)
Theorem parse_ephemeris_markers_out_of_order (response : string) :
  Py.contains response "$$SOE" -> Py.contains response "$$EOE" ->
  Py.find response "$$EOE" <= Py.find response "$$SOE" + 5 ->
  parse_ephemeris response = inr None.
Proof.
  intros Hs He Hle. apply parse_ephemeris_blank; [exact Hs | exact He |].
  unfold between_markers. rewrite slice_empty; [reflexivity|].
  apply find_present in He. destruct (find_range response "$$EOE"); lia.
Qed.

Lemma floats_of_bad (numeric : list string) (bad : string) (more : list string) :
  Forall (fun t => is_Some (float_of_str t)) numeric ->
  float_of_str bad = None ->
  floats_of (numeric ++ bad :: more) = inl (ValueError bad).
Proof.
  intros Hnum Hbad. induction Hnum as [|t l [x Hx] _ IH]; simpl.
  - rewrite Hbad. reflexivity.
  - rewrite Hx, IH. reflexivity.
Qed.

(** X3: a token after the timestamp line that does not read as a number
    makes the parser raise [ValueError] for the first such token, wherever it
    stands: also at positions 5 and 6 or past position 7, whose values the
    result never holds. *)
Theorem parse_ephemeris_non_numeric (response first : string) (rest numeric more : list string)
    (bad : string) :
  Py.contains response "$$SOE" -> Py.contains response "$$EOE" ->
  Py.splitlines (Py.strip (between_markers response)) = first :: rest ->
  Py.split (Py.join " " rest) = numeric ++ bad :: more ->
  Forall (fun t => is_Some (float_of_str t)) numeric ->
  float_of_str bad = None ->
  parse_ephemeris response = inl (ValueError bad).
Proof.
  intros Hs He Hlines Htok Hnum Hbad.
  rewrite (parse_ephemeris_record _ _ _ Hs He Hlines), Htok.
  rewrite (floats_of_bad _ _ _ Hnum Hbad). reflexivity.
Qed.

(** X4: what stands before the first [$$SOE] and after the first [$$EOE]
    does not reach the result: two responses with the same text between their
    markers are parsed alike. *)
Theorem parse_ephemeris_frame (pre post pre' post' body : string) :
  let r := pre +:+ "$$SOE" +:+ body +:+ "$$EOE" +:+ post in
  let r' := pre' +:+ "$$SOE" +:+ body +:+ "$$EOE" +:+ post' in
  Py.find r "$$SOE" = Z.of_nat (String.length pre) ->
  Py.find r "$$EOE" = Z.of_nat (String.length pre + 5 + String.length body) ->
  Py.find r' "$$SOE" = Z.of_nat (String.length pre') ->
  Py.find r' "$$EOE" = Z.of_nat (String.length pre' + 5 + String.length body) ->
  parse_ephemeris r = parse_ephemeris r'.
Proof.
  intros r r' Hs He Hs' He'.
  apply parse_ephemeris_between.
  - apply find_present. rewrite Hs. lia.
  - apply find_present. rewrite He. lia.
  - apply find_present. rewrite Hs'. lia.
  - apply find_present. rewrite He'. lia.
  - unfold r, r'.
    rewrite (between_markers_middle pre body post Hs He).
    rewrite (between_markers_middle pre' body post' Hs' He'). reflexivity.
Qed.

(** ** More on the client *)

(** X5: for a body with a lookup the client sends exactly one request, to the
    URL of its parameters, and a failure ends it where it happens: an
    exception of the GET is raised as it is; a response with a 4xx or 5xx
    status raises [HTTPError] even when its text holds a record the parser
    would accept; an exception of the parser is raised as it is, not wrapped. *)
Theorem get_elements_failures (name : string) (params : dict) :
  get_api_params name = inr (Some params) ->
  (forall detail,
     http_get (get_api_url params) = GetRaises detail ->
     get_elements name = ([HttpGet (get_api_url params)], inl (RequestException detail))) /\
  (forall r,
     http_get (get_api_url params) = GetReturns r ->
     400 <= status_code r < 600 ->
     get_elements name = ([HttpGet (get_api_url params)], inl (HTTPError (status_code r)))) /\
  (forall r e,
     http_get (get_api_url params) = GetReturns r ->
     raise_for_status r = inr tt ->
     parse_ephemeris (text r) = inl e ->
     get_elements name = ([HttpGet (get_api_url params)], inl e)).
Proof.
  intros Hparams. unfold get_elements, session_get. rewrite Hparams. simpl.
  split; [|split].
  - intros detail Hget. rewrite Hget. reflexivity.
  - intros r Hget Hstatus. rewrite Hget. simpl. unfold raise_for_status.
    destruct (Z.leb_spec 400 (status_code r)); [|lia].
    destruct (Z.ltb_spec (status_code r) 600); [|lia]. reflexivity.
  - intros r e Hget Hstatus Hparse. rewrite Hget. simpl.
    rewrite Hstatus. simpl. rewrite Hparse. reflexivity.
Qed.

(** X6: the client returns the elements of the parser, after one request,
    exactly when the GET returns a response whose status is no error and
    whose text the parser decodes. *)
Theorem get_elements_success (name : string) (params : dict) (e : Elements) :
  get_api_params name = inr (Some params) ->
  (get_elements name = ([HttpGet (get_api_url params)], inr (Some e)) <->
   exists r, http_get (get_api_url params) = GetReturns r /\
             raise_for_status r = inr tt /\
             parse_ephemeris (text r) = inr (Some e)).
Proof.
  intros Hparams. unfold get_elements, session_get. rewrite Hparams. simpl.
  destruct (http_get (get_api_url params)) as [detail|r]; simpl.
  { split; [discriminate | intros (r & H & _); discriminate]. }
  destruct (raise_for_status r) as [x|[]] eqn:Hstatus; simpl.
  { split; [discriminate|]. intros (r' & Heq & H & _).
    injection Heq as Heq. subst r'. rewrite Hstatus in H. discriminate. }
  destruct (parse_ephemeris (text r)) as [x|[e'|]] eqn:Hparse; simpl.
  - split; [discriminate|]. intros (r' & Heq & _ & H).
    injection Heq as Heq. subst r'. rewrite Hparse in H. discriminate.
  - split.
    + intros [= <-]. exists r. auto.
    + intros (r' & Heq & _ & H).
      injection Heq as Heq. subst r'. rewrite Hparse in H. injection H as <-. reflexivity.
  - split; [discriminate|]. intros (r' & Heq & _ & H).
    injection Heq as Heq. subst r'. rewrite Hparse in H. discriminate.
Qed.

(** X7: the client returns the empty result exactly for the registry keys
    mapped to [None]: for a body with a lookup it returns elements or raises,
    and for a name outside the registry it raises. *)
Theorem get_elements_empty_iff (name : string) :
  outcome (get_elements name) = inr None <-> BODY_MAP !! name = Some None.
Proof.
  unfold get_elements, get_api_params, session_get.
  destruct (BODY_MAP !! name) as [[[this parent]|]|]; simpl.
  - split; [|discriminate].
    destruct (http_get _) as [detail|r]; simpl; [discriminate|].
    destruct (raise_for_status r) as [x|[]]; simpl; [discriminate|].
    destruct (parse_ephemeris (text r)) as [x|[e'|]]; simpl; discriminate.
  - split; reflexivity.
  - split; discriminate.
Qed.

(** ** More on the request *)

Lemma quote_plus_app (a b : string) :
  Url.quote_plus (a +:+ b) = Url.quote_plus a +:+ Url.quote_plus b.
Proof.
  induction a as [|c a IH]; [reflexivity|].
  rewrite app_cons. simpl. rewrite IH, append_assoc. reflexivity.
Qed.

(** X8: the URL requested for a registry key mapped to a pair is the
    endpoint, the nine fixed parameters in their order, then [COMMAND] with
    the quoted target between escaped quotes and [CENTER] with the quoted
    center after an escaped [@]. *)
Theorem request_url_of_pair (name this parent : string) :
  BODY_MAP !! name = Some (Some (this, parent)) ->
  exists params,
    get_api_params name = inr (Some params) /\
    get_api_url params =
    "https://ssd.jpl.nasa.gov/api/horizons.api?format=text&OBJ_DATA=NO&EPHEM_TYPE=ELEMENTS&MAKE_EPHEM=YES&REF_PLANE=ECLIPTIC&TIME_TYPE=TDB&TLIST=%272460946.166666700%27&TLIST_TYPE=JD&ELM_LABELS=NO&COMMAND=%27"
    +:+ Url.quote_plus this +:+ "%27&CENTER=%40" +:+ Url.quote_plus parent.
Proof.
  intros H. eexists. split; [apply get_api_params_pair; exact H|].
  unfold get_api_url, Url.urlencode, Py.join, API_BASE, API_BASE_PARAMS.
  simpl map. simpl String.concat.
  rewrite !quote_plus_app. rewrite !append_assoc.
  destruct (Url.quote_plus parent), (Url.quote_plus this); reflexivity.
Qed.

(** ** More on the replacement lines *)

(** X9: a line names at most one field: the seven prefixes exclude each
    other, so no [if] of the chain overrides the replacement of an earlier
    one. *)
Theorem names_field_unique (line : string) (f g : field) :
  names_field line f = true -> names_field line g = true -> f = g.
Proof.
  intros Hf Hg.
  apply names_field_prefix in Hf as [[p Hf] | [-> [p Hf]]];
    apply names_field_prefix in Hg as [[q Hg] | [-> [q Hg]]];
    try reflexivity; rewrite Hf in Hg;
    [destruct f, g | destruct f | destruct g];
    try reflexivity; vm_compute in Hg; discriminate Hg.
Qed.

Lemma header_not_recognized (raw name : string) :
  header_name raw = Some name -> recognized (Py.strip raw) = false.
Proof.
  unfold header_name. cbv zeta.
  destruct (Py.startswith (Py.strip raw) "[") eqn:Hstart; [|discriminate].
  intros _. apply prefix_app in Hstart as [post ->]. destruct post; reflexivity.
Qed.

(** ** More on the run *)

Lemma get_elements_effects (name : string) :
  requests (trace (get_elements name)) = option_list (request_url name) /\
  printed (trace (get_elements name)) = [].
Proof.
  unfold get_elements, request_url, session_get.
  destruct (get_api_params name) as [e0|[params|]]; simpl; auto.
  destruct (http_get (get_api_url params)) as [detail|r]; simpl; auto.
  destruct (raise_for_status r) as [e1|[]]; simpl; auto.
  destruct (parse_ephemeris (text r)) as [e2|[el|]]; simpl; auto.
Qed.

Lemma requests_app (t1 t2 : list event) : requests (t1 ++ t2) = requests t1 ++ requests t2.
Proof. apply omap_app. Qed.

Lemma printed_app (t1 t2 : list event) : printed (t1 ++ t2) = printed t1 ++ printed t2.
Proof. apply omap_app. Qed.

(** The effects of an iteration that completes: a header announces its
    fetch and sends the request of its body, any other line is silent. *)
Lemma scan_line_effects (st : scan_state) (k : nat) (raw : string) (tr : list event)
    (st' : scan_state) :
  scan_line st k raw = (tr, inr st') ->
  requests tr = option_list (header_name raw ≫= request_url) /\
  printed tr =
    option_list ((fun name => "Fetching API for " +:+ name +:+ "...") <$> header_name raw) /\
  remaining_bodies st' =
    match header_name raw with
    | Some name => remaining_bodies st ∖ {[name]}
    | None => remaining_bodies st
    end.
Proof.
  intros H. pose proof (scan_line_ok _ _ _ _ _ H) as [_ Hst]. revert H.
  unfold scan_line, header_name, is_header in *. cbv zeta in *.
  destruct (Py.startswith (Py.strip raw) "[" && Py.endswith (Py.strip raw) "]").
  - destruct Hst as [Hin ->]. intros H.
    destruct (patch_line_fields (entered st (Py.slice (Py.strip raw) 1 (-1))) k raw)
      as (_ & _ & ->).
    apply bind_ok in H as (tr1 & st1 & tr2 & Henter & Htail & ->).
    rewrite scan_line_tail in Htail. injection Htail as <- _.
    rewrite app_nil_r. revert Henter. unfold enter_section, set_remove.
    destruct (decide (Py.slice (Py.strip raw) 1 (-1) ∈ remaining_bodies st)) as [_|_];
      [|discriminate].
    rewrite bind_lift_inr.
    destruct (get_elements_effects (Py.slice (Py.strip raw) 1 (-1))) as [Hreq Hpr].
    destruct (get_elements (Py.slice (Py.strip raw) 1 (-1))) as [trg [exc|el]];
      simpl in *; intros [= <- _]; simpl.
    + rewrite requests_app, printed_app, Hreq, Hpr. simpl. rewrite app_nil_r. auto.
    + rewrite app_nil_r, Hreq, Hpr. auto.
  - subst st'. rewrite bind_ret_l, scan_line_tail. intros [= <-].
    destruct (patch_line_fields st k raw) as (_ & _ & ->). auto.
Qed.

Lemma header_names_snoc (l : list string) (raw : string) :
  header_names (l ++ [raw]) = header_names l ++ option_list (header_name raw).
Proof.
  unfold header_names. rewrite omap_app. simpl. destruct (header_name raw); reflexivity.
Qed.

(** The effects and the bookkeeping of a scan that got through [lines]. *)
Lemma scan_effects (lines : list string) (tr : list event) (st : scan_state) :
  scan initial_state 0 lines = (tr, inr st) ->
  requests tr = omap request_url (header_names lines) /\
  printed tr = (fun name => "Fetching API for " +:+ name +:+ "...") <$> header_names lines /\
  remaining_bodies st = dom BODY_MAP ∖ list_to_set (header_names lines).
Proof.
  revert tr st. induction lines as [|raw l IH] using rev_ind; intros tr st.
  - change (scan initial_state 0 []) with (ret (A := scan_state) initial_state).
    intros [= <- <-]. split; [reflexivity|]. split; [reflexivity|].
    change (remaining_bodies initial_state) with (dom BODY_MAP).
    change (header_names []) with (@nil string). set_solver.
  - rewrite scan_snoc. intros H.
    apply bind_ok in H as (tr1 & st1 & tr2 & Hl & Hline & ->).
    destruct (IH _ _ Hl) as (Hreq & Hpr & Hrem).
    destruct (scan_line_effects _ _ _ _ _ Hline) as (Hreq2 & Hpr2 & Hrem2).
    rewrite requests_app, printed_app, header_names_snoc, omap_app, fmap_app.
    rewrite Hreq, Hpr, Hreq2, Hpr2, Hrem2, Hrem.
    destruct (header_name raw) as [name|]; simpl.
    + split; [destruct (request_url name); reflexivity|]. split; [reflexivity|].
      rewrite list_to_set_app_L. simpl. apply set_eq. intros x.
      rewrite !elem_of_difference, !elem_of_union, elem_of_singleton, elem_of_empty.
      split.
      * intros [[Hd Hl'] Hn]. split; [exact Hd|]. intros [?|[?|[]]]; auto.
      * intros [Hd Hn]. split; [split; [exact Hd|]|]; intros ?; apply Hn; auto.
    + rewrite !app_nil_r. auto.
Qed.

(** An iteration on a header whose name is among the remaining bodies
    completes. *)
Lemma scan_line_known (st : scan_state) (k : nat) (raw : string) :
  (forall name, header_name raw = Some name -> name ∈ remaining_bodies st) ->
  exists tr st', scan_line st k raw = (tr, inr st').
Proof.
  intros Hin. destruct (scan_line st k raw) as [tr [e|st']] eqn:H; [|eauto].
  apply scan_line_err in H as (name & Hname & Hout & _). destruct (Hout (Hin _ Hname)).
Qed.

(** The scan gets through exactly when the headers name registry keys, each
    at most once. *)
Lemma scan_completes_iff (lines : list string) :
  (exists tr st, scan initial_state 0 lines = (tr, inr st)) <->
  NoDup (header_names lines) /\
  Forall (fun name => is_Some (BODY_MAP !! name)) (header_names lines).
Proof.
  induction lines as [|raw l IH] using rev_ind.
  - split; [intros _; split; constructor|]. intros _. eexists _, _. reflexivity.
  - rewrite header_names_snoc, NoDup_app, Forall_app. split.
    + intros (tr & st & H). rewrite scan_snoc in H.
      apply bind_ok in H as (tr1 & st1 & tr2 & Hl & Hline & _).
      destruct (proj1 IH (ex_intro _ tr1 (ex_intro _ st1 Hl))) as [Hnd Hall].
      destruct (scan_effects _ _ _ Hl) as (_ & _ & Hrem).
      apply scan_line_ok in Hline as [_ Hst].
      destruct (header_name raw) as [name|]; simpl.
      * destruct Hst as [Hin _]. rewrite Hrem in Hin.
        apply elem_of_difference in Hin as [Hdom Hnew].
        rewrite elem_of_list_to_set in Hnew. apply elem_of_dom in Hdom.
        split; [split; [exact Hnd|]; split|].
        -- intros x Hx Hx'. apply list_elem_of_singleton in Hx'. subst x. exact (Hnew Hx).
        -- apply NoDup_singleton.
        -- split; [exact Hall | constructor; [exact Hdom | constructor]].
      * split; [split; [exact Hnd|]; split|].
        -- intros x _ Hx. inversion Hx.
        -- constructor.
        -- split; [exact Hall | constructor].
    + intros [(Hnd & Hdisj & _) [Hall Hraw]].
      destruct (proj2 IH (conj Hnd Hall)) as (tr1 & st1 & Hl).
      destruct (scan_effects _ _ _ Hl) as (_ & _ & Hrem).
      destruct (scan_line_known st1 (0 + length l) raw) as (tr2 & st2 & Hline).
      * intros name Hname. rewrite Hname in Hdisj, Hraw. simpl in *.
        rewrite Hrem. apply elem_of_difference. split.
        -- apply elem_of_dom. inversion Hraw; assumption.
        -- rewrite elem_of_list_to_set. intros Hin.
           apply (Hdisj name Hin). apply list_elem_of_here.
      * exists (tr1 ++ tr2), st2. rewrite scan_snoc, Hl. unfold bind. rewrite Hline. reflexivity.
Qed.

Lemma report_effects (remaining : gset string) :
  outcome (report remaining) = inr tt /\
  requests (trace (report remaining)) = [] /\
  printed (trace (report remaining)) =
    if decide (remaining = ∅) then []
    else "ERROR: The following bodies are in BODY_MAP but not present in the TOML file (desynchronization):"
         :: ((fun body => "  - " +:+ body) <$> sorted remaining).
Proof.
  unfold report. destruct (decide (remaining = ∅)); [auto|].
  rewrite print_bodies_eq. simpl. split; [reflexivity|].
  induction (sorted remaining) as [|b l [IH1 IH2]]; [auto|].
  simpl. split; [exact IH1|]. injection IH2 as IH2. rewrite IH2. reflexivity.
Qed.

Lemma writes_effects (chunks : list string) :
  requests (map TmpWrite chunks) = [] /\ printed (map TmpWrite chunks) = [].
Proof. induction chunks as [|c l [IH1 IH2]]; auto. Qed.

Lemma patched_length (m : gmap nat string) (k : nat) (lines : list string) :
  length (patched m k lines) = length lines.
Proof. revert k. induction lines as [|x l IH]; intros k; simpl; [reflexivity | rewrite IH; reflexivity]. Qed.


(** X11: a completed run requests, in file order, the URL of every header
    whose body has a lookup, once each, and nothing else: no request for a
    body mapped to [None], none for the report or the write-back. *)
Theorem run_requests (content : string) :
  outcome (main (Some content)) = inr tt ->
  requests (trace (main (Some content))) =
  omap request_url (header_names (Py.file_lines content)).
Proof.
  intros Hok.
  destruct (completed_run _ Hok) as (c & tr & st & body & [= <-] & Hscan & _).
  rewrite (main_completed _ _ _ Hscan). simpl trace.
  destruct (scan_effects _ _ _ Hscan) as (Hreq & _ & _).
  destruct (report_effects (remaining_bodies st)) as (_ & Hrr & _).
  rewrite !requests_app, Hreq, Hrr. simpl. rewrite requests_app.
  rewrite (proj1 (writes_effects _)). simpl. rewrite app_nil_r. reflexivity.
Qed.

(** X12: what a completed run prints with [print(line)]: one announcement
    per header, in file order, then, when some registry key has no header,
    the desynchronization line followed by those keys in sorted order; when
    every key has a header, nothing more. *)
Theorem run_printed (content : string) :
  outcome (main (Some content)) = inr tt ->
  let headers := header_names (Py.file_lines content) in
  let missing := dom BODY_MAP ∖ list_to_set headers in
  printed (trace (main (Some content))) =
  ((fun name => "Fetching API for " +:+ name +:+ "...") <$> headers) ++
  (if decide (missing = ∅) then []
   else "ERROR: The following bodies are in BODY_MAP but not present in the TOML file (desynchronization):"
        :: ((fun body => "  - " +:+ body) <$> sorted missing)).
Proof.
  intros Hok headers missing.
  destruct (completed_run _ Hok) as (c & tr & st & body & [= <-] & Hscan & _).
  rewrite (main_completed _ _ _ Hscan). simpl trace.
  destruct (scan_effects _ _ _ Hscan) as (_ & Hpr & Hrem).
  destruct (report_effects (remaining_bodies st)) as (_ & _ & Hrp).
  rewrite !printed_app, Hpr, Hrp, Hrem. simpl. rewrite printed_app.
  rewrite (proj2 (writes_effects _)). simpl. rewrite app_nil_r. reflexivity.
Qed.

(** X13: a completed run writes one chunk per line of the config file: it
    adds no line and drops none. *)
Theorem run_keeps_line_count (content : string) :
  outcome (main (Some content)) = inr tt ->
  length (written (trace (main (Some content)))) = length (Py.file_lines content).
Proof.
  intros Hok.
  destruct (completed_run _ Hok) as (c & tr & st & body & [= <-] & _ & _ & _ & Hw & _).
  rewrite Hw. apply patched_length.
Qed.

(** A stored line and the line read from it name the same header, if any. *)
Lemma header_name_read (s l : string) :
  l ∈ Py.raw_lines s -> header_name (Py.translate_ending l) = header_name l.
Proof.
  intros Hin. unfold header_name. rewrite (strip_translate_ending _ _ Hin). reflexivity.
Qed.

Lemma preamble_read (content : string) (n : nat) :
  Forall (fun line => header_name line = None) (take n (Py.raw_lines content)) ->
  Forall (fun line => header_name line = None) (take n (Py.file_lines content)).
Proof.
  intros H. apply Forall_forall. intros x Hx.
  apply elem_of_take in Hx as (j & Hj & Hlt).
  rewrite file_lines_raw in Hj.
  change (map Py.translate_ending (Py.raw_lines content))
    with (Py.translate_ending <$> Py.raw_lines content) in Hj.
  rewrite list_lookup_fmap in Hj.
  destruct (Py.raw_lines content !! j) as [l|] eqn:Hl; [|discriminate].
  injection Hj as <-.
  rewrite (header_name_read content l) by (apply list_elem_of_lookup_2 with j, Hl).
  rewrite Forall_forall in H. apply H. apply elem_of_take. eauto.
Qed.

(** X14: a section header is never rewritten, also in a section whose fetch
    returned elements: a completed run writes its text as it is, with LF for
    its line ending, so byte for byte when the line holds no CR. *)
Theorem header_lines_pass_through (content : string) (i : nat) (stored name : string) :
  outcome (main (Some content)) = inr tt ->
  Py.raw_lines content !! i = Some stored ->
  header_name stored = Some name ->
  written (trace (main (Some content))) !! i = Some (Py.translate_ending stored) /\
  (Py.cr_free stored = true -> written (trace (main (Some content))) !! i = Some stored).
Proof.
  intros Hok Hstored Hname.
  assert (Hin : stored ∈ Py.raw_lines content) by (apply list_elem_of_lookup_2 with i, Hstored).
  assert (Hw : written (trace (main (Some content))) !! i = Some (Py.translate_ending stored)).
  { rewrite (written_line _ _ _ Hok (file_lines_lookup _ _ _ Hstored)).
    destruct (section_elements (Py.file_lines content) i) as [e|]; [|reflexivity]. simpl.
    destruct (new_line e (Py.strip (Py.translate_ending stored))) as [nl|] eqn:Hnew; [|reflexivity].
    apply new_line_spec in Hnew as (f & Hf & _). apply recognized_field in Hf.
    rewrite <- (header_name_read _ _ Hin) in Hname.
    rewrite (header_not_recognized _ _ Hname) in Hf. discriminate. }
  split; [exact Hw|].
  intros Hcr. rewrite Hw, (translate_ending_cr_free _ Hcr). reflexivity.
Qed.

(** X15: the lines before the first section header are never rewritten,
    whatever they start with: a completed run writes their text as it is,
    with LF for the line ending, so byte for byte when the line holds no
    CR. *)
Theorem preamble_passes_through (content : string) (i : nat) (stored : string) :
  outcome (main (Some content)) = inr tt ->
  Py.raw_lines content !! i = Some stored ->
  Forall (fun line => header_name line = None) (take (S i) (Py.raw_lines content)) ->
  written (trace (main (Some content))) !! i = Some (Py.translate_ending stored) /\
  (Py.cr_free stored = true -> written (trace (main (Some content))) !! i = Some stored).
Proof.
  intros Hok Hstored Hpre. apply preamble_read in Hpre.
  assert (Hw : written (trace (main (Some content))) !! i = Some (Py.translate_ending stored)).
  { rewrite (written_line _ _ _ Hok (file_lines_lookup _ _ _ Hstored)).
    unfold section_elements, section_at. rewrite (last_header_none _ _ Hpre). reflexivity. }
  split; [exact Hw|].
  intros Hcr. rewrite Hw, (translate_ending_cr_free _ Hcr). reflexivity.
Qed.

(** X16: in a completed run, a line of a section whose fetch returned
    elements, and whose stripped text names a field, is written as the key
    of the field, [ = ], the value of the field and a newline: its leading
    whitespace, its old value and whatever followed it are dropped, and a
    last line without a newline gains one. *)
Theorem field_lines_rewritten (content : string) (i : nat) (raw : string) (e : Elements)
    (f : field) :
  outcome (main (Some content)) = inr tt ->
  Py.file_lines content !! i = Some raw ->
  section_elements (Py.file_lines content) i = Some e ->
  names_field (Py.strip raw) f = true ->
  written (trace (main (Some content))) !! i =
  Some (key_of f +:+ " = " +:+ float_repr (value_of f e) +:+ NL).
Proof.
  intros Hok Hline He Hf. rewrite (written_line _ _ _ Hok Hline), He. simpl.
  assert (Hnew : new_line e (Py.strip raw) =
                 Some (key_of f +:+ " = " +:+ float_repr (value_of f e)))
    by (apply new_line_spec; eauto).
  rewrite Hnew, !append_assoc. reflexivity.
Qed.

(** ** Running the patcher on its own output *)

Lemma newline_free_app (a b : string) :
  newline_free (a +:+ b) = newline_free a && newline_free b.
Proof.
  induction a as [|c a IH]; [reflexivity|].
  rewrite app_cons. simpl. rewrite IH, andb_assoc. reflexivity.
Qed.

Lemma file_lines_plain (c : ascii) (r : string) :
  Py.is_lf c = false -> Py.is_cr c = false ->
  Py.file_lines (String c r) = Py.push_char c (Py.file_lines r).
Proof. intros Hlf Hcr. simpl. rewrite Hlf, Hcr. reflexivity. Qed.

Lemma newline_free_cons (c : ascii) (r : string) :
  newline_free (String c r) = true ->
  Py.is_lf c = false /\ Py.is_cr c = false /\ newline_free r = true.
Proof.
  simpl. intros H. apply andb_prop in H as [H Hr]. apply andb_prop in H as [Hlf Hcr].
  apply negb_true_iff in Hlf, Hcr. auto.
Qed.

Lemma file_lines_line (body rest : string) :
  newline_free body = true ->
  Py.file_lines (body +:+ NL +:+ rest) = (body +:+ NL) :: Py.file_lines rest.
Proof.
  induction body as [|c body IH]; [reflexivity|].
  intros H. apply newline_free_cons in H as (Hlf & Hcr & Hbody).
  rewrite !app_cons, (file_lines_plain _ _ Hlf Hcr), (IH Hbody). reflexivity.
Qed.

Lemma file_lines_partial (l : string) :
  l <> EmptyString -> newline_free l = true -> Py.file_lines l = [l].
Proof.
  induction l as [|c r IH]; [congruence|]. intros _ H.
  apply newline_free_cons in H as (Hlf & Hcr & Hr).
  rewrite (file_lines_plain _ _ Hlf Hcr).
  destruct r as [|d r]; [reflexivity|]. rewrite IH; [reflexivity | discriminate | exact Hr].
Qed.

(** Reading a file and putting lines end to end are inverse to each other
    on lines that hold no line ending but their own LF. *)
Lemma file_lines_joined (ls : list string) :
  is_lines ls -> Py.file_lines (joined ls) = ls.
Proof.
  induction 1 as [|l Hne Hfree|body rest Hfree _ IH]; [reflexivity| |].
  - simpl. rewrite append_empty_r. apply file_lines_partial; assumption.
  - simpl. rewrite append_assoc, (file_lines_line _ _ Hfree), IH. reflexivity.
Qed.

(** The lines read hold no line ending but their own LF, whatever line
    endings the file has. *)
Lemma file_lines_are_lines (s : string) : is_lines (Py.file_lines s).
Proof.
  induction s as [|c r IH IH'] using string_ind2; [constructor|]. simpl.
  destruct (Py.is_lf c) eqn:Hc.
  - rewrite (is_lf_newline _ Hc). apply (lines_cons EmptyString); [reflexivity | exact IH].
  - destruct (Py.is_cr c) eqn:Hcr.
    + destruct r as [|c' r']; [apply (lines_cons EmptyString); [reflexivity | constructor]|].
      destruct (Py.is_lf c') eqn:Hc'.
      * rewrite (is_lf_newline _ Hc').
        apply (lines_cons EmptyString); [reflexivity | exact (IH' c' r' eq_refl)].
      * apply (lines_cons EmptyString); [reflexivity | exact IH].
    + inversion IH as [|l Hne Hfree|body rest Hfree Hrest]; simpl.
      * apply lines_last; [discriminate|]. simpl. rewrite Hc, Hcr. reflexivity.
      * apply lines_last; [discriminate|]. simpl. rewrite Hc, Hcr, Hfree. reflexivity.
      * rewrite <- app_cons. apply lines_cons; [|exact Hrest].
        simpl. rewrite Hc, Hcr, Hfree. reflexivity.
Qed.

Lemma patched_are_lines (m : gmap nat string) (k : nat) (ls : list string) :
  is_lines ls ->
  (forall i nl, m !! i = Some nl -> newline_free nl = true) ->
  is_lines (patched m k ls).
Proof.
  intros Hls Hm. revert k.
  induction Hls as [|l Hne Hfree|body rest Hfree _ IH]; intros k; simpl.
  - constructor.
  - destruct (m !! k) as [nl|] eqn:Hk.
    + apply lines_cons; [exact (Hm _ _ Hk) | constructor].
    + apply lines_last; assumption.
  - destruct (m !! k) as [nl|] eqn:Hk.
    + apply lines_cons; [exact (Hm _ _ Hk) | apply IH].
    + apply lines_cons; [exact Hfree | apply IH].
Qed.

Lemma strip_key (f : field) (rest : string) :
  Py.strip (key_of f +:+ rest) = key_of f +:+ Py.rstrip rest.
Proof. destruct f; vm_compute; reflexivity. Qed.

(** A replacement line names the field it was written for, and is no
    header. *)
Lemma rewritten_line (f : field) (rest : string) :
  names_field (Py.strip (key_of f +:+ rest)) f = true /\
  header_name (key_of f +:+ rest) = None.
Proof.
  split.
  - rewrite strip_key. unfold names_field, Py.startswith.
    apply orb_true_intro. left. apply prefix_app. eauto.
  - unfold header_name. cbv zeta. rewrite strip_key.
    destruct f; reflexivity.
Qed.

Lemma last_header_map (acc : option string) (lines : list string) :
  last_header acc lines = last_some acc (map header_name lines).
Proof. revert acc. induction lines as [|raw l IH]; intros acc; simpl; [reflexivity | apply IH]. Qed.

Lemma header_names_map (lines : list string) :
  header_names lines = omap id (map header_name lines).
Proof.
  unfold header_names. induction lines as [|raw l IH]; [reflexivity|].
  change (omap header_name (raw :: l))
    with (match header_name raw with
          | Some n => n :: omap header_name l
          | None => omap header_name l
          end).
  rewrite IH. reflexivity.
Qed.

Lemma replacement_newline_free (e : Elements) (line nl : string) :
  (forall x, newline_free (float_repr x) = true) ->
  new_line e line = Some nl -> newline_free nl = true.
Proof.
  intros Hrepr Hnew. apply new_line_spec in Hnew as (f & _ & ->).
  rewrite !newline_free_app, Hrepr. destruct f; reflexivity.
Qed.

(** The chunk a completed run writes for a line is the line itself, or the
    replacement for the field the line names. *)
Lemma chunk_cases (content : string) (i : nat) (raw : string) :
  outcome (main (Some content)) = inr tt ->
  Py.file_lines content !! i = Some raw ->
  (written (trace (main (Some content))) !! i = Some raw /\
   section_elements (Py.file_lines content) i ≫= (fun e => new_line e (Py.strip raw)) = None) \/
  (exists e f,
     section_elements (Py.file_lines content) i = Some e /\
     header_name raw = None /\
     written (trace (main (Some content))) !! i =
       Some (key_of f +:+ (" = " +:+ float_repr (value_of f e) +:+ NL))).
Proof.
  intros Hok Hline. rewrite (written_line _ _ _ Hok Hline).
  destruct (section_elements (Py.file_lines content) i) as [e|] eqn:He; [|left; auto].
  simpl. destruct (new_line e (Py.strip raw)) as [nl|] eqn:Hnew; [|left; auto].
  right. apply new_line_spec in Hnew as (f & Hf & ->). exists e, f.
  split; [reflexivity|]. split.
  - destruct (header_name raw) as [name|] eqn:Hname; [|reflexivity].
    apply recognized_field in Hf. rewrite (header_not_recognized _ _ Hname) in Hf. discriminate.
  - rewrite !append_assoc. reflexivity.
Qed.

(** X17: when the text of a float holds no newline (LF or CR), the output
    of a completed run is a fixed point of the patcher: run again on it, with
    the same responses, the patcher completes and writes the same file. *)
Theorem patch_idempotent (content out : string) :
  (forall x, newline_free (float_repr x) = true) ->
  outcome (main (Some content)) = inr tt ->
  file_after (Some content) = Some out ->
  outcome (main (Some out)) = inr tt /\ file_after (Some out) = Some out.
Proof.
  intros Hrepr Hok Hout.
  destruct (completed_run _ Hok) as (c & tr & st & body & [= <-] & Hscan & _ & _ & Hw & Hfs).
  set (lines := Py.file_lines content) in *.
  set (chunks := written (trace (main (Some content)))) in *.
  unfold file_after in Hout. rewrite Hfs, <- Hw in Hout. simpl in Hout.
  injection Hout as <-.
  assert (Hlen : forall i, chunks !! i = None <-> lines !! i = None).
  { intros i. rewrite Hw, patched_lookup. destruct (lines !! i); simpl; split; congruence. }
  assert (Hlines : is_lines chunks).
  { rewrite Hw. apply patched_are_lines; [apply file_lines_are_lines|].
    intros i nl Hi. apply scan_invariant in Hscan as (_ & _ & _ & _ & Hmod).
    rewrite Hmod in Hi. fold lines in Hi. destruct (lines !! i) as [raw|]; [|discriminate].
    destruct (section_elements lines i) as [e|]; [|discriminate]. simpl in Hi.
    exact (replacement_newline_free _ _ _ Hrepr Hi). }
  assert (Hsplit : Py.file_lines (joined chunks) = chunks) by (apply file_lines_joined, Hlines).
  assert (Hheaders : map header_name chunks = map header_name lines).
  { apply list_eq. intros i. rewrite !list_lookup_fmap.
    destruct (lines !! i) as [raw|] eqn:Hline.
    - destruct (chunk_cases _ _ _ Hok Hline) as [[Hc _] | (e & f & _ & Hraw & Hc)];
        fold chunks in Hc; rewrite Hc; simpl; [reflexivity|].
      rewrite Hraw. f_equal. apply rewritten_line.
    - apply Hlen in Hline. rewrite Hline. reflexivity. }
  assert (Hscan2 : exists tr2 st2, scan initial_state 0 chunks = (tr2, inr st2)).
  { apply scan_completes_iff. rewrite header_names_map, Hheaders, <- header_names_map.
    apply scan_completes_iff. eauto. }
  destruct Hscan2 as (tr2 & st2 & Hscan2).
  assert (Hok2 : outcome (main (Some (joined chunks))) = inr tt).
  { rewrite (main_completed (joined chunks) tr2 st2); [reflexivity|].
    rewrite Hsplit. exact Hscan2. }
  split; [exact Hok2|].
  destruct (completed_run _ Hok2) as (c2 & tr' & st' & body' & [= <-] & _ & _ & _ & Hw2 & Hfs2).
  unfold file_after. rewrite Hfs2. simpl. do 2 f_equal.
  rewrite <- Hw2. apply list_eq. intros i.
  destruct (chunks !! i) as [chunk|] eqn:Hchunk.
  - assert (Hline2 : Py.file_lines (joined chunks) !! i = Some chunk)
      by (rewrite Hsplit; exact Hchunk).
    rewrite (written_line _ _ _ Hok2 Hline2).
    assert (Hsec : section_elements (Py.file_lines (joined chunks)) i = section_elements lines i).
    { unfold section_elements, section_at.
      rewrite Hsplit, !last_header_map, <- !List.firstn_map, Hheaders. reflexivity. }
    rewrite Hsec.
    destruct (lines !! i) as [raw|] eqn:Hline; [|apply Hlen in Hline; congruence].
    destruct (chunk_cases _ _ _ Hok Hline) as [[Hc Hnone] | (e & f & He & _ & Hc)];
      fold chunks in Hc; rewrite Hchunk in Hc; injection Hc as ->.
    + fold lines in Hnone. rewrite Hnone. reflexivity.
    + fold lines in He. rewrite He. simpl.
      assert (Hnew : new_line e (Py.strip (key_of f +:+ (" = " +:+ float_repr (value_of f e) +:+ NL)))
                     = Some (key_of f +:+ " = " +:+ float_repr (value_of f e))).
      { apply new_line_spec. exists f. split; [apply rewritten_line | reflexivity]. }
      rewrite Hnew, !append_assoc. reflexivity.
  - rewrite Hw2, patched_lookup, Hsplit, Hchunk. reflexivity.
Qed.

End Patcher.

(** ** The properties at work on the sample built-ins, network and files *)

Lemma parse_ephemeris_fields_witness :
  exists t0 t1 t2 t3 t4 t5 t6 t7 more,
    [2; 100000000; 7; 48; 29; 5; 6; 174; 9; 10; 11; 12]%float =
      t0 :: t1 :: t2 :: t3 :: t4 :: t5 :: t6 :: t7 :: more /\
    parse_ephemeris Sample.float_of_str Sample.mercury_text =
      inr (Some (mkElements t0 t1 t2 t3 t4 t7)).
Proof.
  apply (parse_ephemeris_fields Sample.float_of_str Sample.mercury_text
           "2460946 = A.D. 2025-Sep-27 16:00:00.0029 TDB"
           [" 2 100000000 7"; " 48 29 5"; " 6 174 9 10 11 12"]).
  - apply find_present. vm_compute. discriminate.
  - apply find_present. vm_compute. discriminate.
  - vm_compute. reflexivity.
  - vm_compute. reflexivity.
  - simpl. lia.
Defined.

Lemma unparsable_response_raises_witness :
  parse_ephemeris Sample.float_of_str "API unavailable" = inr None /\
  get_elements Sample.float_of_str Sample.http_get "venus" =
    ([HttpGet (Sample.url_of "venus")],
     inl (Exception ("Could not parse ephemeris. Could this be an API error?" +:+ NL +:+
                     "Server response:" +:+ NL +:+ "API unavailable"))).
Proof.
  destruct (unparsable_response_raises Sample.float_of_str Sample.http_get) as [H1 H2].
  split.
  - apply H1. left. apply find_absent. vm_compute. reflexivity.
  - apply (H2 "venus"
              (API_BASE_PARAMS ++ [("COMMAND", "'299'"); ("CENTER", "@10")])
              (mkResponse 200 "API unavailable")); vm_compute; reflexivity.
Defined.

Lemma registry_lookup_cases_witness :
  (get_api_params "the_sun" = inr None /\
   get_elements Sample.float_of_str Sample.http_get "the_sun" = ([], inr None)) /\
  get_api_params "luna" =
    inr (Some (API_BASE_PARAMS ++ [("COMMAND", "'301'"); ("CENTER", "@399")])) /\
  (get_api_params "vulcan" =
     inl (Exception "Body 'vulcan' is not in BODY_MAP (unrecognized body)") /\
   get_elements Sample.float_of_str Sample.http_get "vulcan" =
     ([], inl (Exception "Body 'vulcan' is not in BODY_MAP (unrecognized body)"))).
Proof.
  split; [|split].
  - destruct (registry_lookup_cases Sample.float_of_str Sample.http_get "the_sun")
      as (H & _ & _).
    apply H. vm_compute. reflexivity.
  - destruct (registry_lookup_cases Sample.float_of_str Sample.http_get "luna")
      as (_ & H & _).
    apply (H "301" "399"). vm_compute. reflexivity.
  - destruct (registry_lookup_cases Sample.float_of_str Sample.http_get "vulcan")
      as (_ & _ & H).
    apply H. vm_compute. reflexivity.
Defined.

Lemma replacement_key_witness :
  new_line Sample.float_repr (mkElements 2 100000000 7 48 29 174) "periapsis = 46001200000.0"
    = Some "periapsis = 100000000000.0" /\
  new_line Sample.float_repr (mkElements 2 100000000 7 48 29 174) "apoapsis = 69816900000.0"
    = Some "eccentricity = 2.0".
Proof.
  destruct (replacement_key Sample.float_repr (mkElements 2 100000000 7 48 29 174)
              "periapsis = 46001200000.0") as (Hkey & _ & _).
  destruct (replacement_key Sample.float_repr (mkElements 2 100000000 7 48 29 174)
              "apoapsis = 69816900000.0") as (_ & Hapo & _).
  split.
  - apply (Hkey Periapsis). vm_compute. reflexivity.
  - apply Hapo. vm_compute. reflexivity.
Defined.

(** C2: an [apoapsis] line of a fetched section is replaced by an
    [eccentricity] line: the replacement does not keep the key of the line. *)
Lemma apoapsis_line_renamed :
  Py.file_lines Sample.presets !! 5%nat = Some ("apoapsis = 69816900000.0" +:+ NL) /\
  written (trace (main Sample.float_of_str Sample.float_repr Sample.http_get
                       (Some Sample.presets))) !! 5%nat =
    Some ("eccentricity = 2.0" +:+ NL) /\
  Py.startswith "eccentricity = 2.0" "apoapsis" = false.
Proof. repeat split; vm_compute; reflexivity. Qed.




(** With the temporary directory on another filesystem, the move of the run
    on the sample presets leaves, at some point, nothing but the first
    line's text in the config file. *)
Lemma config_partial_during_copy_witness :
  mkFs (Some (substring 0 9 Sample.presets_patched)) (Some Sample.presets_patched)
  ∈ fs_states false (mkFs (Some Sample.presets) None)
      (trace (main Sample.float_of_str Sample.float_repr Sample.http_get (Some Sample.presets))).
Proof.
  assert (Hout : joined (written (trace (main Sample.float_of_str Sample.float_repr
                                            Sample.http_get (Some Sample.presets))))
                 = Sample.presets_patched) by (vm_compute; reflexivity).
  rewrite <- Hout.
  apply (config_partial_during_copy Sample.float_of_str Sample.float_repr Sample.http_get
           (Some Sample.presets) 9).
  - vm_compute. reflexivity.
  - rewrite Hout. vm_compute. lia.
Defined.

(** With the temporary directory on the filesystem of the config file, the
    config file holds the sample presets or their patched text in every
    state the run goes through. *)
Example config_replaced_on_rename :
  Forall (fun s => toml_file s = Some Sample.presets \/
                   toml_file s = Some Sample.presets_patched)
    (fs_states true (mkFs (Some Sample.presets) None)
       (trace (main Sample.float_of_str Sample.float_repr Sample.http_get
                    (Some Sample.presets)))).
Proof.
  apply Forall_forall. intros s Hs.
  apply config_intact_or_replaced_on_rename in Hs as [H | [_ ->]]; [left; exact H|].
  right. vm_compute. reflexivity.
Qed.

Lemma unknown_section_aborts_witness :
  exists culprit,
    outcome (main Sample.float_of_str Sample.float_repr Sample.http_get
               (Some ("[asteroid_belt]" +:+ NL +:+ "mass = 1" +:+ NL)))
      = inl (KeyError culprit) /\
    Forall quiet (trace (main Sample.float_of_str Sample.float_repr Sample.http_get
                              (Some ("[asteroid_belt]" +:+ NL +:+ "mass = 1" +:+ NL)))) /\
    file_after Sample.float_of_str Sample.float_repr Sample.http_get
      (Some ("[asteroid_belt]" +:+ NL +:+ "mass = 1" +:+ NL)) =
      Some ("[asteroid_belt]" +:+ NL +:+ "mass = 1" +:+ NL).
Proof.
  apply (unknown_section_aborts Sample.float_of_str Sample.float_repr Sample.http_get
           ("[asteroid_belt]" +:+ NL +:+ "mass = 1" +:+ NL) 0
           ("[asteroid_belt]" +:+ NL) "asteroid_belt").
  - vm_compute. reflexivity.
  - vm_compute. reflexivity.
  - vm_compute. reflexivity.
Defined.

Lemma unregistered_sections_no_output_witness :
  exists name,
    main Sample.float_of_str Sample.float_repr Sample.http_get
      (Some ("# belt" +:+ NL +:+ "[asteroid_belt]" +:+ NL +:+ "mass = 1" +:+ NL)) =
    ([], inl (KeyError name)).
Proof.
  apply (unregistered_sections_no_output Sample.float_of_str Sample.float_repr Sample.http_get).
  - intros raw name Hin Hname.
    assert (Hlines : Py.file_lines ("# belt" +:+ NL +:+ "[asteroid_belt]" +:+ NL +:+ "mass = 1" +:+ NL)
                     = ["# belt" +:+ NL; "[asteroid_belt]" +:+ NL; "mass = 1" +:+ NL])
      by (vm_compute; reflexivity).
    rewrite Hlines in Hin.
    repeat (apply elem_of_cons in Hin as [-> | Hin]);
      try (vm_compute in Hname; discriminate).
    + vm_compute in Hname. injection Hname as <-. vm_compute. reflexivity.
    + inversion Hin.
  - exists ("[asteroid_belt]" +:+ NL), "asteroid_belt". split.
    + apply list_elem_of_lookup. exists 1%nat. vm_compute. reflexivity.
    + vm_compute. reflexivity.
Defined.

(** On that file the run ends at the header, with nothing printed, fetched
    or written. *)
Example unregistered_section_run :
  main Sample.float_of_str Sample.float_repr Sample.http_get
    (Some ("# belt" +:+ NL +:+ "[asteroid_belt]" +:+ NL +:+ "mass = 1" +:+ NL)) =
  ([], inl (KeyError "asteroid_belt")).
Proof. vm_compute. reflexivity. Qed.

(** ** Further properties at work on the samples *)

Lemma pretty_N_go_newline_free (x : N) (s : string) :
  newline_free s = true -> newline_free (pretty_N_go x s) = true.
Proof.
  revert s. induction (N.lt_wf_0 x) as [x _ IH]. intros s Hs.
  destruct (N.eq_dec x 0%N) as [->|Hx]; [rewrite pretty_N_go_0; exact Hs|].
  rewrite pretty_N_go_step by lia. apply IH; [apply N.div_lt; lia|].
  simpl. rewrite Hs. unfold pretty_N_char. repeat case_match; reflexivity.
Qed.

Lemma pretty_Z_newline_free (z : Z) : newline_free (pretty z) = true.
Proof.
  assert (Hpos : forall p : positive, newline_free (pretty p) = true).
  { intros p. unfold pretty, pretty_positive, pretty, pretty_N.
    destruct (decide (N.pos p = 0%N)); [reflexivity|].
    apply pretty_N_go_newline_free. reflexivity. }
  destruct z as [|p|p]; [reflexivity | apply Hpos |].
  unfold pretty, pretty_Z. rewrite newline_free_app. simpl. apply Hpos.
Qed.

(** The sample text of a float holds no newline. *)
Lemma sample_float_repr_newline_free (x : float) :
  newline_free (Sample.float_repr x) = true.
Proof.
  unfold Sample.float_repr.
  destruct (Prim2SF x) as [[]|[]| |sign m e]; try reflexivity.
  destruct (Sample.integral_value m e) as [z|]; [|reflexivity].
  destruct (z <? 10 ^ 16); [|reflexivity].
  rewrite !newline_free_app, pretty_Z_newline_free. destruct sign; reflexivity.
Qed.

Lemma parse_ephemeris_markers_out_of_order_witness :
  parse_ephemeris Sample.float_of_str Sample.markers_swapped = inr None.
Proof.
  apply (parse_ephemeris_markers_out_of_order Sample.float_of_str Sample.markers_swapped).
  - apply find_present. vm_compute. discriminate.
  - apply find_present. vm_compute. discriminate.
  - vm_compute. discriminate.
Defined.

Lemma parse_ephemeris_non_numeric_witness :
  parse_ephemeris Sample.float_of_str Sample.record_with_gap = inl (ValueError "n.a.").
Proof.
  apply (parse_ephemeris_non_numeric Sample.float_of_str Sample.record_with_gap
           "2460946 = A.D. 2025-Sep-27" [" 1 2 3 4 5 n.a. 7 8"]
           ["1"; "2"; "3"; "4"; "5"] ["7"; "8"]).
  - apply find_present. vm_compute. discriminate.
  - apply find_present. vm_compute. discriminate.
  - vm_compute. reflexivity.
  - vm_compute. reflexivity.
  - repeat (constructor; [eexists; vm_compute; reflexivity|]). constructor.
  - vm_compute. reflexivity.
Defined.

Lemma parse_ephemeris_frame_witness :
  parse_ephemeris Sample.float_of_str
    (("*******" +:+ NL) +:+ "$$SOE" +:+ (NL +:+ "T" +:+ NL +:+ " 1 2 3 4 5 6 7 8" +:+ NL)
     +:+ "$$EOE" +:+ (NL +:+ "*******")) =
  parse_ephemeris Sample.float_of_str
    ("" +:+ "$$SOE" +:+ (NL +:+ "T" +:+ NL +:+ " 1 2 3 4 5 6 7 8" +:+ NL) +:+ "$$EOE" +:+ "").
Proof.
  apply (parse_ephemeris_frame Sample.float_of_str
           ("*******" +:+ NL) (NL +:+ "*******") "" ""
           (NL +:+ "T" +:+ NL +:+ " 1 2 3 4 5 6 7 8" +:+ NL));
    vm_compute; reflexivity.
Defined.

Lemma get_elements_failures_witness :
  get_elements Sample.float_of_str Sample.http_get "mars" =
  ([HttpGet (Sample.url_of "mars")], inl (HTTPError 503)).
Proof.
  destruct (get_elements_failures Sample.float_of_str Sample.http_get "mars"
              (API_BASE_PARAMS ++ [("COMMAND", "'499'"); ("CENTER", "@10")]))
    as (_ & Hstatus & _).
  - vm_compute. reflexivity.
  - apply (Hstatus (mkResponse 503 "Service Unavailable")).
    + vm_compute. reflexivity.
    + simpl. lia.
Defined.

Lemma get_elements_success_witness :
  get_elements Sample.float_of_str Sample.http_get "mercury" =
  ([HttpGet (Sample.url_of "mercury")],
   inr (Some (mkElements 2 100000000 7 48 29 174))).
Proof.
  apply (get_elements_success Sample.float_of_str Sample.http_get "mercury"
           (API_BASE_PARAMS ++ [("COMMAND", "'199'"); ("CENTER", "@10")])).
  - vm_compute. reflexivity.
  - exists (mkResponse 200 Sample.mercury_text). repeat split; vm_compute; reflexivity.
Defined.

Lemma request_url_of_pair_witness :
  exists params,
    get_api_params "ceres" = inr (Some params) /\
    get_api_url params =
    "https://ssd.jpl.nasa.gov/api/horizons.api?format=text&OBJ_DATA=NO&EPHEM_TYPE=ELEMENTS&MAKE_EPHEM=YES&REF_PLANE=ECLIPTIC&TIME_TYPE=TDB&TLIST=%272460946.166666700%27&TLIST_TYPE=JD&ELM_LABELS=NO&COMMAND=%27"
    +:+ Url.quote_plus "1;" +:+ "%27&CENTER=%40" +:+ Url.quote_plus "10".
Proof.
  apply (request_url_of_pair "ceres" "1;" "10"). vm_compute. reflexivity.
Defined.

Lemma names_field_unique_witness : Periapsis = Periapsis.
Proof.
  apply (names_field_unique "periapsis = 46001200000.0"); vm_compute; reflexivity.
Defined.

Lemma run_requests_witness :
  requests (trace (main Sample.float_of_str Sample.float_repr Sample.http_get
                        (Some Sample.presets))) =
  omap request_url (header_names (Py.file_lines Sample.presets)).
Proof.
  apply (run_requests Sample.float_of_str Sample.float_repr Sample.http_get).
  vm_compute. reflexivity.
Defined.

Lemma run_printed_witness :
  printed (trace (main Sample.float_of_str Sample.float_repr Sample.http_get
                       (Some Sample.presets))) =
  ((fun name => "Fetching API for " +:+ name +:+ "...") <$>
     header_names (Py.file_lines Sample.presets)) ++
  (if decide (dom BODY_MAP ∖ list_to_set (header_names (Py.file_lines Sample.presets))
              = (∅ : gset string))
   then []
   else "ERROR: The following bodies are in BODY_MAP but not present in the TOML file (desynchronization):"
        :: ((fun body => "  - " +:+ body) <$>
              sorted (dom BODY_MAP ∖ list_to_set (header_names (Py.file_lines Sample.presets))))).
Proof.
  apply (run_printed Sample.float_of_str Sample.float_repr Sample.http_get).
  vm_compute. reflexivity.
Defined.

Lemma run_keeps_line_count_witness :
  length (written (trace (main Sample.float_of_str Sample.float_repr Sample.http_get
                               (Some Sample.presets)))) =
  length (Py.file_lines Sample.presets).
Proof.
  apply (run_keeps_line_count Sample.float_of_str Sample.float_repr Sample.http_get).
  vm_compute. reflexivity.
Defined.

Lemma header_lines_pass_through_witness :
  written (trace (main Sample.float_of_str Sample.float_repr Sample.http_get
                       (Some Sample.presets_crlf))) !! 1%nat =
  Some (Py.translate_ending ("[mercury]" +:+ CR +:+ NL)).
Proof.
  destruct (header_lines_pass_through Sample.float_of_str Sample.float_repr Sample.http_get
              Sample.presets_crlf 1 ("[mercury]" +:+ CR +:+ NL) "mercury") as [H _].
  - vm_compute. reflexivity.
  - vm_compute. reflexivity.
  - vm_compute. reflexivity.
  - exact H.
Defined.

Lemma preamble_passes_through_witness :
  written (trace (main Sample.float_of_str Sample.float_repr Sample.http_get
                       (Some ("periapsis = 1" +:+ NL +:+ "[mercury]" +:+ NL +:+
                              "periapsis = 2" +:+ NL)))) !! 0%nat =
  Some ("periapsis = 1" +:+ NL).
Proof.
  destruct (preamble_passes_through Sample.float_of_str Sample.float_repr Sample.http_get
              ("periapsis = 1" +:+ NL +:+ "[mercury]" +:+ NL +:+ "periapsis = 2" +:+ NL)
              0 ("periapsis = 1" +:+ NL)) as [_ H].
  - vm_compute. reflexivity.
  - vm_compute. reflexivity.
  - repeat constructor.
  - apply H. vm_compute. reflexivity.
Defined.

Lemma field_lines_rewritten_witness :
  written (trace (main Sample.float_of_str Sample.float_repr Sample.http_get
                       (Some Sample.presets))) !! 8%nat =
  Some (key_of MeanAnomaly +:+ " = " +:+
        Sample.float_repr (value_of MeanAnomaly (mkElements 2 100000000 7 48 29 174)) +:+ NL).
Proof.
  apply (field_lines_rewritten Sample.float_of_str Sample.float_repr Sample.http_get
           Sample.presets 8 ("mean_anomaly = 0" +:+ NL)); vm_compute; reflexivity.
Defined.

Lemma patch_idempotent_witness :
  outcome (main Sample.float_of_str Sample.float_repr Sample.http_get
             (Some Sample.presets_patched)) = inr tt /\
  file_after Sample.float_of_str Sample.float_repr Sample.http_get
    (Some Sample.presets_patched) = Some Sample.presets_patched.
Proof.
  apply (patch_idempotent Sample.float_of_str Sample.float_repr Sample.http_get Sample.presets).
  - exact sample_float_repr_newline_free.
  - vm_compute. reflexivity.
  - vm_compute. reflexivity.
Defined.

Lemma headerless_file_unchanged_witness :
  outcome (main Sample.float_of_str Sample.float_repr Sample.http_get
             (Some ("# no sections" +:+ CR +:+ NL +:+ "periapsis = 1"))) = inr tt /\
  written (trace (main Sample.float_of_str Sample.float_repr Sample.http_get
                       (Some ("# no sections" +:+ CR +:+ NL +:+ "periapsis = 1")))) =
    map Py.translate_ending (Py.raw_lines ("# no sections" +:+ CR +:+ NL +:+ "periapsis = 1")) /\
  file_after Sample.float_of_str Sample.float_repr Sample.http_get
    (Some ("# no sections" +:+ CR +:+ NL +:+ "periapsis = 1")) =
    Some (joined (map Py.translate_ending
                    (Py.raw_lines ("# no sections" +:+ CR +:+ NL +:+ "periapsis = 1")))) /\
  (Py.cr_free ("# no sections" +:+ CR +:+ NL +:+ "periapsis = 1") = true ->
   file_after Sample.float_of_str Sample.float_repr Sample.http_get
     (Some ("# no sections" +:+ CR +:+ NL +:+ "periapsis = 1")) =
     Some ("# no sections" +:+ CR +:+ NL +:+ "periapsis = 1")).
Proof.
  apply (headerless_file_unchanged Sample.float_of_str Sample.float_repr Sample.http_get).
  assert (Hlines : Py.file_lines ("# no sections" +:+ CR +:+ NL +:+ "periapsis = 1")
                   = ["# no sections" +:+ NL; "periapsis = 1"]) by (vm_compute; reflexivity).
  rewrite Hlines.
  repeat (constructor; [vm_compute; reflexivity|]). constructor.
Defined.

(** The file of that run afterwards: the same text with LF line endings. *)
Example headerless_crlf_file_after :
  file_after Sample.float_of_str Sample.float_repr Sample.http_get
    (Some ("# no sections" +:+ CR +:+ NL +:+ "periapsis = 1")) =
  Some ("# no sections" +:+ NL +:+ "periapsis = 1").
Proof. vm_compute. reflexivity. Qed.
